(** * Typing-speed trainer: the typing session of [UI.py]

    A shallow embedding of [SentenceDisplay] and [TypingArea] (file
    [UI.py]) together with the part of the Tk event loop they drive
    ([after], [after_cancel], the firing of a scheduled callback).

    Modelling choices:
    - a Python [str] is a list of Unicode code points ([N]);
    - a Python [int] is a [Z]; [len] and loop indices are [nat];
    - a Python [float] is read as the exact rational it stands for ([Q]):
      [/] is true division, raising [ZeroDivisionError] on a zero divisor;
      binary64 rounding is not modelled (the test [accuracy_score == 100]
      has the same outcome on floats for any sentence shorter than 2^53
      characters);
    - a Tk label is modelled by the text it was configured with, kept
      symbolic (which literal or which format string, and its argument);
    - methods that may raise run in the error monad [result]. *)

From Stdlib Require Import List Bool Arith ZArith NArith QArith Lia String Ascii.
Import ListNotations.

Set Implicit Arguments.

(** ** Python values *)

Module Py.

Definition char := N.
Definition str := list char.

(** A literal written with ASCII characters. *)
Definition lit (s : string) : str :=
  map N_of_ascii (list_ascii_of_string s).

Definition truthy (s : str) : bool :=
  match s with [] => false | _ :: _ => true end.

(** [str.isspace] on one code point: the white-space table of CPython. *)
Definition isspace (c : char) : bool :=
  (((9 <=? c) && (c <=? 13)) || ((28 <=? c) && (c <=? 32))
   || (c =? 133) || (c =? 160) || (c =? 5760)
   || ((8192 <=? c) && (c <=? 8202))
   || (c =? 8232) || (c =? 8233) || (c =? 8239) || (c =? 8287)
   || (c =? 12288))%N.

(** [s.split()] with no separator: runs of white space delimit the
    tokens, and no empty token is produced. [word] is the token being
    read, most recent character first. *)
Fixpoint split_from (word : str) (s : str) : list str :=
  match s with
  | [] => match word with [] => [] | _ => [rev word] end
  | c :: rest =>
      if isspace c then
        match word with
        | [] => split_from [] rest
        | _ => rev word :: split_from [] rest
        end
      else split_from (c :: word) rest
  end.

Definition split (s : str) : list str := split_from [] s.

Inductive exception :=
| IndexError
| ZeroDivisionError
  (** named by the specification only; no code path raises it *)
| EmptyCorpus.

Inductive result (A : Type) :=
| Return (a : A)
| Raise (e : exception).
Arguments Return {A} a.
Arguments Raise {A} e.

Definition bind {A B} (m : result A) (k : A -> result B) : result B :=
  match m with
  | Return a => k a
  | Raise e => Raise e
  end.

(** [a / b] on numbers. *)
Definition truediv (a b : Q) : result Q :=
  if Qeq_bool b 0 then Raise ZeroDivisionError else Return (a / b)%Q.

(** [seq[i]] on a list, for an index that is not negative. *)
Definition getitem {A} (seq : list A) (i : nat) : result A :=
  match nth_error seq i with
  | Some x => Return x
  | None => Raise IndexError
  end.

(** [random.choice(seq)]; [r] is what the generator's
    [_randbelow(len(seq))] returns during the call. *)
Definition choice {A} (seq : list A) (r : nat) : result A :=
  match seq with
  | [] => Raise IndexError
  | _ :: _ => getitem seq r
  end.

End Py.

Import Py.

Notation "x <- m ;; k" := (bind m (fun x => k))
  (at level 61, m at next level, right associativity).

Definition of_int (z : Z) : Q := inject_Z z.
Definition of_len (n : nat) : Q := inject_Z (Z.of_nat n).

(** ** Tk: labels and scheduled callbacks *)

Inductive accuracy_text :=
| AccuracyInitial               (* "Accuracy: 100%" *)
| AccuracyScore (score : Q).    (* f"Accuracy: {score:.2f}%" *)

Inductive timer_text :=
| TimeInitial                   (* "Time: 0s" *)
| TimeElapsed (seconds : Z).    (* f"Time Elapsed: {seconds}s" *)

Inductive wpm_text :=
| WpmZero                       (* "WPM: 0.00" *)
| WpmValue (wpm : Q).           (* f"WPM: {wpm:.2f}" *)

(** The number a WPM label shows. *)
Definition wpm_shown (t : wpm_text) : Q :=
  match t with WpmZero => 0 | WpmValue q => q end.

(** Identifier returned by [after]: the [n] of Tk's ["after#n"]. *)
Definition after_id := nat.
Bind Scope nat_scope with after_id.

(** ** The two widgets *)

Record SentenceDisplay := mkSentenceDisplay {
  sentence_list : list str;     (* data.sentences *)
  sentence_label : str
}.

Record TypingArea := mkTypingArea {
  sentence_display : SentenceDisplay;
  timer_running : bool;
  time_elapsed : Z;
  timer_id : option after_id;
  input_area : str;
  accuracy_label : accuracy_text;
  timer_label : timer_text;
  wpm_label : wpm_text;
  (* the event loop of the enclosing Tk application *)
  now : Z;                              (* milliseconds *)
  after_queue : list (after_id * Z);    (* pending [update_timer], with due time *)
  after_count : nat                     (* next identifier *)
}.

Definition set_timer_running (b : bool) (self : TypingArea) : TypingArea :=
  mkTypingArea (sentence_display self) b (time_elapsed self) (timer_id self)
    (input_area self) (accuracy_label self) (timer_label self) (wpm_label self)
    (now self) (after_queue self) (after_count self).

Definition set_time_elapsed (t : Z) (self : TypingArea) : TypingArea :=
  mkTypingArea (sentence_display self) (timer_running self) t (timer_id self)
    (input_area self) (accuracy_label self) (timer_label self) (wpm_label self)
    (now self) (after_queue self) (after_count self).

Definition set_input_area (s : str) (self : TypingArea) : TypingArea :=
  mkTypingArea (sentence_display self) (timer_running self) (time_elapsed self)
    (timer_id self) s (accuracy_label self) (timer_label self) (wpm_label self)
    (now self) (after_queue self) (after_count self).

Definition set_accuracy_label (a : accuracy_text) (self : TypingArea) : TypingArea :=
  mkTypingArea (sentence_display self) (timer_running self) (time_elapsed self)
    (timer_id self) (input_area self) a (timer_label self) (wpm_label self)
    (now self) (after_queue self) (after_count self).

Definition set_timer_label (t : timer_text) (self : TypingArea) : TypingArea :=
  mkTypingArea (sentence_display self) (timer_running self) (time_elapsed self)
    (timer_id self) (input_area self) (accuracy_label self) t (wpm_label self)
    (now self) (after_queue self) (after_count self).

Definition set_wpm_label (w : wpm_text) (self : TypingArea) : TypingArea :=
  mkTypingArea (sentence_display self) (timer_running self) (time_elapsed self)
    (timer_id self) (input_area self) (accuracy_label self) (timer_label self) w
    (now self) (after_queue self) (after_count self).

Definition set_sentence_display (d : SentenceDisplay) (self : TypingArea) : TypingArea :=
  mkTypingArea d (timer_running self) (time_elapsed self)
    (timer_id self) (input_area self) (accuracy_label self) (timer_label self)
    (wpm_label self) (now self) (after_queue self) (after_count self).

(** The clock of the event loop moves on. *)
Definition set_now (t : Z) (self : TypingArea) : TypingArea :=
  mkTypingArea (sentence_display self) (timer_running self) (time_elapsed self)
    (timer_id self) (input_area self) (accuracy_label self) (timer_label self)
    (wpm_label self) t (after_queue self) (after_count self).

(** [self.timer_id = self.after(ms, self.update_timer)]. *)
Definition after (ms : Z) (self : TypingArea) : TypingArea :=
  mkTypingArea (sentence_display self) (timer_running self) (time_elapsed self)
    (Some (after_count self)) (input_area self) (accuracy_label self)
    (timer_label self) (wpm_label self) (now self)
    (after_queue self ++ [(after_count self, (now self + ms)%Z)])
    (S (after_count self)).

(** [self.after_cancel(id)]: an identifier that is no longer pending is
    ignored. *)
Definition after_cancel (id : after_id) (self : TypingArea) : TypingArea :=
  mkTypingArea (sentence_display self) (timer_running self) (time_elapsed self)
    (timer_id self) (input_area self) (accuracy_label self) (timer_label self)
    (wpm_label self) (now self)
    (filter (fun e => negb (Nat.eqb (fst e) id)) (after_queue self))
    (after_count self).

(** ** SentenceDisplay *)

Definition get_random_sentence (self : SentenceDisplay) (r : nat) : result str :=
  choice (sentence_list self) r.

Definition display_sentence (self : SentenceDisplay) (r : nat)
  : result SentenceDisplay :=
  sentence <- get_random_sentence self r ;;
  Return (mkSentenceDisplay (sentence_list self) sentence).

Definition get_sentence (self : SentenceDisplay) : str := sentence_label self.

(** [SentenceDisplay.__init__]; a Tk label starts with an empty text. *)
Definition SentenceDisplay_init (sentences : list str) (r : nat)
  : result SentenceDisplay :=
  display_sentence (mkSentenceDisplay sentences []) r.

(** ** TypingArea *)

Definition TypingArea_init (d : SentenceDisplay) : TypingArea :=
  mkTypingArea d false 0 None [] AccuracyInitial TimeInitial WpmZero 0 [] 0.

Definition calculate_wpm (input_text : str) (self : TypingArea)
  : result TypingArea :=
  if (time_elapsed self >? 0)%Z then
    time_minutes <- truediv (of_int (time_elapsed self)) 60 ;;
    let words := List.length (split input_text) in
    wpm <- truediv (of_len words) time_minutes ;;
    Return (set_wpm_label (WpmValue wpm) self)
  else Return (set_wpm_label WpmZero self).

Definition stop_timer (self : TypingArea) : TypingArea :=
  let self := if timer_running self then set_timer_running false self else self in
  match timer_id self with
  | Some id => after_cancel id self
  | None => self
  end.

Definition reset_timer (self : TypingArea) : TypingArea :=
  let self := set_timer_running false self in
  let self := set_time_elapsed 0 self in
  set_timer_label TimeInitial self.

Definition update_timer (self : TypingArea) : result TypingArea :=
  if timer_running self then
    let self := set_time_elapsed (time_elapsed self + 1) self in
    let self := set_timer_label (TimeElapsed (time_elapsed self)) self in
    let input_text := input_area self in
    self <- calculate_wpm input_text self ;;
    Return (after 1000 self)
  else Return self.

Definition start_timer (self : TypingArea) : result TypingArea :=
  if negb (timer_running self) then
    let self := set_timer_running true self in
    update_timer self
  else Return self.

(** The expression of line 113:
    [(correct_chars / len(sentence)) * 100 if sentence else 0]. *)
Definition accuracy_expr (correct_chars : nat) (sentence : str) : result Q :=
  if truthy sentence then
    ratio <- truediv (of_len correct_chars) (of_len (List.length sentence)) ;;
    Return (ratio * 100)%Q
  else Return 0%Q.

(** [i < len(sentence) and char == sentence[i]]. *)
Definition char_matches (sentence : str) (i : nat) (c : char) : bool :=
  match nth_error sentence i with
  | Some d => N.eqb c d
  | None => false
  end.

(** The [for i, char in enumerate(input_text)] loop of [check_accuracy];
    [chars] is what is left of the input from index [i] on. *)
Fixpoint check_accuracy_loop (input_text sentence : str) (i : nat)
    (chars : str) (correct_chars : nat) (self : TypingArea)
  : result TypingArea :=
  match chars with
  | [] => Return self
  | c :: rest =>
      let correct_chars :=
        if char_matches sentence i c then S correct_chars else correct_chars in
      accuracy_score <- accuracy_expr correct_chars sentence ;;
      let self := set_accuracy_label (AccuracyScore accuracy_score) self in
      self <- (if Qeq_bool accuracy_score 100
               then calculate_wpm input_text (stop_timer self)
               else Return self) ;;
      check_accuracy_loop input_text sentence (S i) rest correct_chars self
  end.

Definition check_accuracy (self : TypingArea) : result TypingArea :=
  let input_text := input_area self in
  let sentence := get_sentence (sentence_display self) in
  self <- check_accuracy_loop input_text sentence 0 input_text 0 self ;;
  calculate_wpm input_text self.

(** [r] is the generator's draw in [display_sentence]. Binding the key
    handler again and [focus_set] leave the state modelled here as it is:
    a [FocusIn] that follows finds the timer running. *)
Definition restart_program (r : nat) (self : TypingArea) : result TypingArea :=
  let self := reset_timer self in
  let self := set_input_area [] self in
  d <- display_sentence (sentence_display self) r ;;
  let self := set_sentence_display d self in
  let self := set_accuracy_label AccuracyInitial self in
  let self := set_wpm_label WpmZero self in
  start_timer self.

(** ** The event loop

    The handlers bound in [TypingArea.__init__] and the firing of a
    scheduled [update_timer]. [KeyRelease text]: the entry holds [text]
    when the key is released. [Restart r]: the button is pressed and the
    generator draws [r]. [Fire id]: the callback registered under [id]
    comes due. *)

Inductive event :=
| FocusIn
| KeyRelease (text : str)
| Restart (r : nat)
| Fire (id : after_id).

Definition due_time (id : after_id) (self : TypingArea) : option Z :=
  option_map snd (find (fun e => Nat.eqb (fst e) id) (after_queue self)).

(** A one-shot callback leaves the queue when it fires. *)
Definition fire (id : after_id) (self : TypingArea) : result TypingArea :=
  match due_time id self with
  | Some due =>
      let self := after_cancel id self in
      update_timer (set_now (Z.max (now self) due) self)
  | None => Return self
  end.

Definition handle (e : event) (self : TypingArea) : result TypingArea :=
  match e with
  | FocusIn => start_timer self
  | KeyRelease text => check_accuracy (set_input_area text self)
  | Restart r => restart_program r self
  | Fire id => fire id self
  end.

Fixpoint run (es : list event) (self : TypingArea) : result TypingArea :=
  match es with
  | [] => Return self
  | e :: es' => self' <- handle e self ;; run es' self'
  end.

(** [TypingSpeedApp.__init__]: the sentence display, then the typing area. *)
Definition TypingSpeedApp (sentences : list str) (r : nat) : result TypingArea :=
  d <- SentenceDisplay_init sentences r ;;
  Return (TypingArea_init d).

(** A session bound to one target sentence, as constructed. *)
Definition fresh (target : str) : TypingArea :=
  TypingArea_init (mkSentenceDisplay [target] target).

(** The pending callbacks, by identifier. *)
Definition pending (self : TypingArea) : list after_id :=
  map fst (after_queue self).

(** ** Pure readings of the arithmetic *)

(** What [calculate_wpm] shows. *)
Definition wpm_of (input_text : str) (elapsed : Z) : wpm_text :=
  if (elapsed >? 0)%Z
  then WpmValue (of_len (List.length (split input_text)) / (of_int elapsed / 60))
  else WpmZero.

(** What line 113 evaluates to. *)
Definition score (correct_chars : nat) (sentence : str) : Q :=
  if truthy sentence
  then of_len correct_chars / of_len (List.length sentence) * 100
  else 0.

(** Matches counted by the loop from index [i] on. *)
Fixpoint count_correct (sentence : str) (i : nat) (chars : str) : nat :=
  match chars with
  | [] => 0
  | c :: rest =>
      (if char_matches sentence i c then 1 else 0)
      + count_correct sentence (S i) rest
  end.

(** Tokens counted as word starts: a character that is not white space and
    follows white space or begins the text. *)
Fixpoint word_starts (after_space : bool) (s : str) : nat :=
  match s with
  | [] => 0
  | c :: rest =>
      if isspace c then word_starts true rest
      else (if after_space then 1 else 0) + word_starts false rest
  end.

(** ** Definitions used in the statements *)

Definition not_space (c : char) : bool := negb (isspace c).

(** One firing of [update_timer] while the timer runs. *)
Definition tick (self : TypingArea) : TypingArea :=
  let t := (time_elapsed self + 1)%Z in
  after 1000
    (set_wpm_label (wpm_of (input_area self) t)
       (set_timer_label (TimeElapsed t) (set_time_elapsed t self))).

Definition str_eq_dec : forall a b : str, {a = b} + {a <> b} :=
  list_eq_dec N.eq_dec.

(** Does a call return the sentence [s]? *)
Definition selects (s : str) (m : result str) : bool :=
  match m with
  | Return x => if str_eq_dec x s then true else false
  | Raise _ => false
  end.

(** The state the loop leaves once its body has run: the label of the
    last iteration and, when that score is 100, the stopped timer. *)
Definition finish (input_text sentence : str) (total : nat) (self : TypingArea)
  : TypingArea :=
  let self := set_accuracy_label (AccuracyScore (score total sentence)) self in
  if Qeq_bool (score total sentence) 100
  then set_wpm_label (wpm_of input_text (time_elapsed self)) (stop_timer self)
  else self.

(** [finish] with the score and the WPM text taken as given. *)
Definition finish_with (a : accuracy_text) (stop : bool) (w : wpm_text)
    (self : TypingArea) : TypingArea :=
  if stop
  then set_wpm_label w (stop_timer (set_accuracy_label a self))
  else set_accuracy_label a self.

(** What one input-change event leaves behind, in closed form. *)
Definition after_input (self : TypingArea) : TypingArea :=
  let input_text := input_area self in
  let sentence := get_sentence (sentence_display self) in
  set_wpm_label (wpm_of input_text (time_elapsed self))
    match input_text with
    | [] => self
    | _ :: _ =>
        finish input_text sentence (count_correct sentence 0 input_text) self
    end.

(** The accuracy an input-change event computes: the value of
    [accuracy_score] when the loop ends, if its body ran at all. *)
Definition accuracy_of (sentence input_text : str) : option Q :=
  match input_text with
  | [] => None
  | _ :: _ => Some (score (count_correct sentence 0 input_text) sentence)
  end.

(** A tick reaches [update_timer] either because a registered callback
    comes due or, by error, with nothing registered. *)
Inductive delivery :=
| Scheduled (id : after_id)
| Stray.

Definition deliver (d : delivery) (self : TypingArea) : result TypingArea :=
  match d with
  | Scheduled id => fire id self
  | Stray => update_timer self
  end.

Fixpoint deliver_all (ds : list delivery) (self : TypingArea)
  : result TypingArea :=
  match ds with
  | [] => Return self
  | d :: ds' => self' <- deliver d self ;; deliver_all ds' self'
  end.

(** ** Definitions used in the further properties *)

(** Every [Restart] of the sequence draws an index below [n]. *)
Definition draws_below (n : nat) (es : list event) : bool :=
  forallb (fun e => match e with Restart r => Nat.ltb r n | _ => true end) es.

(** The sequence holds no [Restart]. *)
Definition no_restart (es : list event) : bool :=
  forallb (fun e => match e with Restart _ => false | _ => true end) es.

(** The callback kept in [timer_id] comes due. *)
Definition fire_timer (self : TypingArea) : result TypingArea :=
  match timer_id self with
  | Some id => fire id self
  | None => Return self
  end.

Fixpoint fire_timer_times (n : nat) (self : TypingArea) : result TypingArea :=
  match n with
  | O => Return self
  | S n' => self' <- fire_timer self ;; fire_timer_times n' self'
  end.

(** [" ".join(words)]. *)
Fixpoint spaced (words : list str) : str :=
  match words with
  | [] => []
  | [w] => w
  | w :: ws => w ++ 32%N :: spaced ws
  end.

(** The timer label shows the elapsed time. *)
Definition timer_label_shows (self : TypingArea) : Prop :=
  (time_elapsed self = 0%Z /\ timer_label self = TimeInitial)
  \/ ((1 <= time_elapsed self)%Z
      /\ timer_label self = TimeElapsed (time_elapsed self)).

(** One cadence: while the timer runs exactly one callback is pending, the
    one kept in [timer_id]; while it does not run none is. *)
Definition one_cadence (self : TypingArea) : Prop :=
  if timer_running self
  then exists id due, timer_id self = Some id /\ after_queue self = [(id, due)]
  else after_queue self = [].

(** * Properties *)

(** ** Division *)

Lemma of_int_pos_nonzero (z : Z) (d : Q) :
  (0 < z)%Z -> (0 < d)%Q -> Qeq_bool (of_int z / d) 0 = false.
Proof.
  intros Hz Hd.
  destruct (Qeq_bool (of_int z / d) 0) eqn:E; [|reflexivity].
  apply Qeq_bool_eq in E.
  assert (0 < of_int z / d)%Q as Hpos.
  { apply Qlt_shift_div_l; [assumption|].
    rewrite Qmult_0_l. unfold of_int, Qlt; simpl. lia. }
  rewrite E in Hpos. exfalso. revert Hpos. apply Qlt_irrefl.
Qed.

Lemma of_len_pos_nonzero (n : nat) :
  (0 < n)%nat -> Qeq_bool (of_len n) 0 = false.
Proof.
  intros Hn.
  destruct (Qeq_bool (of_len n) 0) eqn:E; [|reflexivity].
  apply Qeq_bool_eq in E. unfold of_len, Qeq in E; simpl in E. lia.
Qed.

Lemma calculate_wpm_returns (input_text : str) (self : TypingArea) :
  calculate_wpm input_text self
  = Return (set_wpm_label (wpm_of input_text (time_elapsed self)) self).
Proof.
  unfold calculate_wpm, wpm_of.
  destruct (time_elapsed self >? 0)%Z eqn:E; [|reflexivity].
  apply Z.gtb_lt in E.
  unfold truediv at 1. change (Qeq_bool 60 0) with false. cbn [bind].
  unfold truediv. rewrite of_int_pos_nonzero by (try assumption; reflexivity).
  reflexivity.
Qed.

Lemma accuracy_expr_returns (correct_chars : nat) (sentence : str) :
  accuracy_expr correct_chars sentence = Return (score correct_chars sentence).
Proof.
  unfold accuracy_expr, score.
  destruct sentence as [|c s]; [reflexivity|].
  cbn [truthy]. unfold truediv.
  rewrite of_len_pos_nonzero by (simpl; lia). reflexivity.
Qed.

(** ** Tokens of [split] *)

Lemma split_from_length (word s : str) :
  List.length (split_from word s)
  = match word with
    | [] => word_starts true s
    | _ :: _ => S (word_starts false s)
    end.
Proof.
  revert word. induction s as [|c rest IH]; intros word.
  - destruct word; reflexivity.
  - cbn [split_from word_starts]. destruct (isspace c).
    + destruct word; cbn [List.length]; rewrite (IH []); reflexivity.
    + rewrite (IH (c :: word)). destruct word; reflexivity.
Qed.

(** The number of tokens is the number of word starts. *)
Lemma split_length (s : str) :
  List.length (split s) = word_starts true s.
Proof. apply (split_from_length [] s). Qed.

Lemma split_from_tokens (word s : str) :
  forallb not_space word = true ->
  Forall (fun w => w <> [] /\ forallb not_space w = true) (split_from word s).
Proof.
  revert word. induction s as [|c rest IH]; intros word Hw.
  - destruct word as [|d word]; constructor; [|constructor].
    split.
    + intros E. apply (f_equal (@List.length _)) in E.
      rewrite length_rev in E. discriminate.
    + rewrite forallb_forall in *. intros x Hx. apply Hw.
      apply in_rev. assumption.
  - cbn [split_from]. destruct (isspace c) eqn:Ec.
    + destruct word as [|d word]; [apply IH; reflexivity|].
      constructor; [|apply IH; reflexivity].
      split.
      * intros E. apply (f_equal (@List.length _)) in E.
        rewrite length_rev in E. discriminate.
      * rewrite forallb_forall in *. intros x Hx. apply Hw.
        apply in_rev. assumption.
    + apply IH. cbn [forallb]. unfold not_space at 1. rewrite Ec. assumption.
Qed.

(** No token is empty and no token holds white space. *)
Lemma split_tokens (s : str) :
  Forall (fun w => w <> [] /\ forallb not_space w = true) (split s).
Proof. apply split_from_tokens. reflexivity. Qed.

Lemma split_from_concat (word s : str) :
  List.concat (split_from word s) = rev word ++ filter not_space s.
Proof.
  revert word. induction s as [|c rest IH]; intros word.
  - destruct word; cbn [split_from List.concat filter]; rewrite ?app_nil_r; reflexivity.
  - cbn [split_from filter]. unfold not_space at 1.
    destruct (isspace c); cbn [negb].
    + destruct word; cbn [List.concat]; rewrite (IH []); reflexivity.
    + rewrite (IH (c :: word)). cbn [rev]. rewrite <- app_assoc. reflexivity.
Qed.

(** The tokens, put end to end, are the text without its white space. *)
Lemma split_concat (s : str) : List.concat (split s) = filter not_space s.
Proof. apply (split_from_concat [] s). Qed.

Example split_one_two_three :
  split (lit "one two three") = [lit "one"; lit "two"; lit "three"].
Proof. reflexivity. Qed.

Example split_blank_runs :
  split (lit "  a   b ") = [lit "a"; lit "b"] /\ split (lit "   ") = [].
Proof. split; reflexivity. Qed.

(** ** Words per minute *)

(** C3. For every input text and every elapsed time, [calculate_wpm]
    returns without raising; the WPM it shows is the number of
    white-space delimited tokens of the input divided by the elapsed
    minutes (elapsed seconds over 60) when the elapsed time is positive,
    and 0 when it is 0; with 60 elapsed seconds and the input
    "one two three" it shows 3. *)
Theorem calculate_wpm_formula (input_text : str) (self : TypingArea) :
  exists self',
    calculate_wpm input_text self = Return self'
    /\ ((0 < time_elapsed self)%Z ->
        wpm_shown (wpm_label self')
        == of_len (List.length (split input_text))
           / (of_int (time_elapsed self) / 60))
    /\ (time_elapsed self = 0%Z -> wpm_shown (wpm_label self') == 0)
    /\ (time_elapsed self = 60%Z -> input_text = lit "one two three" ->
        wpm_shown (wpm_label self') == 3).
Proof.
  eexists. split; [apply calculate_wpm_returns|].
  cbn [wpm_label set_wpm_label]. unfold wpm_of.
  repeat split.
  - intros H. apply Z.gtb_lt in H. rewrite H. reflexivity.
  - intros H. rewrite H. reflexivity.
  - intros H ->. rewrite H. reflexivity.
Qed.

Lemma calculate_wpm_formula_witness :
  exists self',
    calculate_wpm (lit "one two three")
      (set_time_elapsed 60 (fresh (lit "one two three"))) = Return self'
    /\ wpm_shown (wpm_label self') == 3
    /\ wpm_shown (wpm_label self') == of_len 3 / (of_int 60 / 60).
Proof.
  destruct (calculate_wpm_formula (lit "one two three")
              (set_time_elapsed 60 (fresh (lit "one two three"))))
    as (self' & Hret & Hpos & _ & Hex).
  exists self'. split; [exact Hret|]. split.
  - apply Hex; reflexivity.
  - apply Hpos. reflexivity.
Defined.

(** ** The timer *)

Lemma update_timer_running (self : TypingArea) :
  timer_running self = true -> update_timer self = Return (tick self).
Proof.
  intros H. unfold update_timer. rewrite H.
  rewrite calculate_wpm_returns. reflexivity.
Qed.

Lemma update_timer_stopped (self : TypingArea) :
  timer_running self = false -> update_timer self = Return self.
Proof. intros H. unfold update_timer. rewrite H. reflexivity. Qed.

Lemma start_timer_running (self : TypingArea) :
  timer_running self = true -> start_timer self = Return self.
Proof. intros H. unfold start_timer. rewrite H. reflexivity. Qed.

Lemma start_timer_stopped (self : TypingArea) :
  timer_running self = false ->
  start_timer self = Return (tick (set_timer_running true self)).
Proof.
  intros H. unfold start_timer. rewrite H. cbn [negb].
  apply update_timer_running. reflexivity.
Qed.

(** C7. [start_timer] on a session whose timer already runs changes
    nothing; two calls in a row are one call; from a stopped timer the
    two calls leave exactly one more callback pending than before. *)
Theorem start_timer_reentrant (self : TypingArea) :
  (timer_running self = true -> start_timer self = Return self)
  /\ (self' <- start_timer self ;; start_timer self') = start_timer self
  /\ (timer_running self = false ->
      exists self'',
        (self' <- start_timer self ;; start_timer self') = Return self''
        /\ timer_running self'' = true
        /\ after_queue self''
           = after_queue self ++ [(after_count self, (now self + 1000)%Z)]).
Proof.
  split; [apply start_timer_running|].
  destruct (timer_running self) eqn:E.
  - rewrite (start_timer_running self E). cbn [bind].
    split; [apply start_timer_running; assumption|discriminate].
  - rewrite (start_timer_stopped self E). cbn [bind].
    split; [apply start_timer_running; reflexivity|].
    intros _. eexists. split; [apply start_timer_running; reflexivity|].
    split; reflexivity.
Qed.

Lemma start_timer_reentrant_witness :
  exists self'',
    run [FocusIn; FocusIn] (fresh (lit "abc")) = Return self''
    /\ pending self'' = [0%nat]
    /\ start_timer self'' = Return self''.
Proof.
  destruct (start_timer_reentrant (fresh (lit "abc"))) as (_ & _ & H).
  destruct (H eq_refl) as (self'' & Hrun & Hrunning & Hq).
  exists self''. split; [|split].
  - cbn [run handle]. destruct (start_timer (fresh (lit "abc"))); cbn [bind] in *;
      [destruct (start_timer a); [assumption|discriminate]|discriminate].
  - unfold pending. rewrite Hq. reflexivity.
  - apply (start_timer_reentrant self''). assumption.
Defined.

(** C10. From the idle state (timer not running, no time elapsed)
    [start_timer] runs the first tick before it returns: on return one
    second is already counted and shown, no time has passed on the
    clock, and the next tick is registered 1000 ms ahead under the
    identifier kept in [timer_id]. *)
Theorem start_timer_first_tick (self : TypingArea) :
  timer_running self = false ->
  time_elapsed self = 0%Z ->
  exists self',
    start_timer self = Return self'
    /\ timer_running self' = true
    /\ time_elapsed self' = 1%Z
    /\ timer_label self' = TimeElapsed 1
    /\ now self' = now self
    /\ timer_id self' = Some (after_count self)
    /\ after_queue self'
       = after_queue self ++ [(after_count self, (now self + 1000)%Z)].
Proof.
  intros Hrun Hzero. eexists. split; [apply start_timer_stopped; assumption|].
  cbn. rewrite Hzero. repeat split.
Qed.

Lemma start_timer_first_tick_witness :
  exists self',
    handle FocusIn (fresh (lit "abc")) = Return self'
    /\ time_elapsed self' = 1%Z
    /\ after_queue self' = [(0%nat, 1000%Z)].
Proof.
  destruct (start_timer_first_tick (fresh (lit "abc")) eq_refl eq_refl)
    as (self' & Hret & _ & Ht & _ & _ & _ & Hq).
  exists self'. split; [exact Hret|]. split; [exact Ht|exact Hq].
Defined.

(** ** Choosing the sentence *)

Lemma selects_count (s : str) (l : list str) :
  List.length (filter (fun r => selects s (getitem l r)) (seq 0 (List.length l)))
  = count_occ str_eq_dec l s.
Proof.
  induction l as [|x l IH]; [reflexivity|].
  cbn [List.length]. rewrite <- cons_seq, <- seq_shift.
  cbn [filter count_occ]. unfold getitem at 1. cbn [nth_error selects].
  assert (filter (fun r => selects s (getitem (x :: l) r))
            (map S (seq 0 (List.length l)))
          = map S (filter (fun r => selects s (getitem l r))
                     (seq 0 (List.length l)))) as ->.
  { clear IH. induction (seq 0 (List.length l)) as [|r rs IHr]; [reflexivity|].
    cbn [map filter]. unfold getitem at 1. cbn [nth_error].
    fold (getitem l r). destruct (selects s (getitem l r));
      cbn [map]; rewrite IHr; reflexivity. }
  destruct (str_eq_dec x s); cbn [List.length]; rewrite length_map, IH;
    reflexivity.
Qed.

(** C9, as the code has it. On a list that is not empty
    [get_random_sentence] returns the sentence at the index the generator
    draws, so every position of the list is selected by exactly one draw
    below the length and a sentence is selected by as many draws as it
    has occurrences: a uniform draw is a uniform selection. On the empty
    list it raises [IndexError], whatever is drawn. *)
Theorem get_random_sentence_selection (self : SentenceDisplay) :
  (forall r, (r < List.length (sentence_list self))%nat ->
     exists s, get_random_sentence self r = Return s
               /\ nth_error (sentence_list self) r = Some s)
  /\ (sentence_list self <> [] -> forall s,
        List.length (filter (fun r => selects s (get_random_sentence self r))
                       (seq 0 (List.length (sentence_list self))))
        = count_occ str_eq_dec (sentence_list self) s)
  /\ (sentence_list self = [] ->
      forall r, get_random_sentence self r = Raise IndexError).
Proof.
  unfold get_random_sentence, choice. destruct (sentence_list self) as [|x l] eqn:E.
  - split; [intros r Hr; inversion Hr|]. split; [congruence|reflexivity].
  - split; [|split; [|discriminate]].
    + intros r Hr. unfold getitem.
      destruct (nth_error (x :: l) r) as [s|] eqn:En.
      * exists s. split; reflexivity.
      * apply nth_error_None in En. lia.
    + intros _ s. apply selects_count.
Qed.

Lemma get_random_sentence_selection_witness :
  get_random_sentence (mkSentenceDisplay [lit "a"; lit "b"; lit "a"] []) 1
  = Return (lit "b")
  /\ List.length
       (filter (fun r => selects (lit "a")
                  (get_random_sentence
                     (mkSentenceDisplay [lit "a"; lit "b"; lit "a"] []) r))
          (seq 0 3)) = 2%nat
  /\ get_random_sentence (mkSentenceDisplay [] []) 7 = Raise IndexError.
Proof.
  destruct (get_random_sentence_selection
              (mkSentenceDisplay [lit "a"; lit "b"; lit "a"] []))
    as (Hsel & Hcount & _).
  destruct (get_random_sentence_selection (mkSentenceDisplay [] []))
    as (_ & _ & Hempty).
  split; [|split].
  - destruct (Hsel 1%nat) as (s & Hs & Hn); [simpl; lia|].
    rewrite Hs. simpl in Hn. congruence.
  - apply (Hcount ltac:(discriminate) (lit "a")).
  - apply Hempty. reflexivity.
Defined.

(** C9, as stated, fails on the empty list: the error raised is
    [IndexError], not [EmptyCorpus]; constructing the application over
    an empty corpus fails the same way. *)
Lemma get_random_sentence_empty_not_EmptyCorpus :
  get_random_sentence (mkSentenceDisplay [] []) 0 = Raise IndexError
  /\ get_random_sentence (mkSentenceDisplay [] []) 0 <> Raise EmptyCorpus
  /\ TypingSpeedApp [] 0 = Raise IndexError.
Proof. repeat split. discriminate. Qed.

(** ** The accuracy loop *)

Lemma score_complete_iff (n : nat) (sentence : str) :
  Qeq_bool (score n sentence) 100 = true
  <-> sentence <> [] /\ n = List.length sentence.
Proof.
  unfold score. destruct sentence as [|c s]; cbn [truthy].
  - split; [discriminate|]. intros [H _]. congruence.
  - rewrite Qeq_bool_iff.
    assert (~ of_len (List.length (c :: s)) == 0) as Hnz.
    { unfold of_len, Qeq; cbn [Qnum Qden inject_Z List.length]. lia. }
    split.
    + intros H. split; [discriminate|].
      assert (of_len n == of_len (List.length (c :: s))) as E.
      { assert (of_len n / of_len (List.length (c :: s)) == 1) as E1.
        { apply (Qmult_inj_r _ _ 100); [discriminate|]. rewrite H. reflexivity. }
        rewrite <- (Qmult_div_r (of_len n) _ Hnz). rewrite E1. ring. }
      unfold of_len, Qeq in E; cbn [Qnum Qden inject_Z] in E. lia.
    + intros [_ ->]. field. exact Hnz.
Qed.

Lemma count_correct_bound (sentence : str) (chars : str) (i : nat) :
  (count_correct sentence i chars <= List.length sentence - i)%nat.
Proof.
  revert i. induction chars as [|c rest IH]; intros i; cbn [count_correct]; [lia|].
  specialize (IH (S i)). unfold char_matches.
  destruct (nth_error sentence i) as [d|] eqn:E.
  - assert (i < List.length sentence)%nat
      by (apply nth_error_Some; congruence).
    destruct (N.eqb c d); lia.
  - lia.
Qed.

Lemma count_correct_app (sentence a b : str) (i : nat) :
  count_correct sentence i (a ++ b)
  = (count_correct sentence i a
     + count_correct sentence (i + List.length a) b)%nat.
Proof.
  revert i. induction a as [|c a IH]; intros i; cbn [count_correct app List.length].
  - rewrite Nat.add_0_r. reflexivity.
  - rewrite IH. replace (S i + List.length a)%nat with (i + S (List.length a))%nat by lia.
    lia.
Qed.

(** A stretch of the sentence typed in place is counted in full. *)
Lemma count_correct_matched (pre matched tail : str) :
  count_correct (pre ++ matched ++ tail) (List.length pre) matched
  = List.length matched.
Proof.
  revert pre. induction matched as [|c m IH]; intros pre; [reflexivity|].
  cbn [count_correct List.length]. unfold char_matches.
  rewrite nth_error_app2 by lia. rewrite Nat.sub_diag. cbn [app nth_error].
  rewrite N.eqb_refl.
  specialize (IH (pre ++ [c])). rewrite length_app in IH. cbn [List.length] in IH.
  rewrite Nat.add_1_r in IH. rewrite <- app_assoc in IH. cbn [app] in IH.
  rewrite IH. reflexivity.
Qed.

(** A stretch that differs from the sentence at every position counts
    for nothing. *)
Lemma count_correct_wrong (sentence wrong : str) (i : nat) :
  (forall j c, nth_error wrong j = Some c ->
               nth_error sentence (i + j) <> Some c) ->
  count_correct sentence i wrong = 0%nat.
Proof.
  revert i. induction wrong as [|c w IH]; intros i H; [reflexivity|].
  cbn [count_correct]. rewrite (IH (S i)).
  - unfold char_matches. destruct (nth_error sentence i) as [d|] eqn:E; [|reflexivity].
    destruct (N.eqb_spec c d) as [->|]; [|reflexivity].
    exfalso. apply (H 0%nat d); [reflexivity|]. rewrite Nat.add_0_r. exact E.
  - intros j d Hj. replace (S i + j)%nat with (i + S j)%nat by lia.
    apply H. exact Hj.
Qed.

Lemma filter_twice {A} (f : A -> bool) (l : list A) :
  filter f (filter f l) = filter f l.
Proof.
  induction l as [|x l IH]; [reflexivity|].
  cbn [filter]. destruct (f x) eqn:E; [|exact IH].
  cbn [filter]. rewrite E, IH. reflexivity.
Qed.

Lemma stop_timer_twice (self : TypingArea) :
  stop_timer (stop_timer self) = stop_timer self.
Proof.
  destruct self as [d running t [id|] inp acc tl wl n qu k]; destruct running;
    unfold stop_timer, after_cancel, set_timer_running;
    cbn [sentence_display timer_running time_elapsed timer_id input_area
         accuracy_label timer_label wpm_label now after_queue after_count];
    try rewrite filter_twice; reflexivity.
Qed.

Lemma stop_timer_time_elapsed (self : TypingArea) :
  time_elapsed (stop_timer self) = time_elapsed self.
Proof.
  destruct self as [d running t [id|] inp acc tl wl n qu k]; destruct running;
    reflexivity.
Qed.

Lemma stop_timer_set_accuracy_label (a : accuracy_text) (self : TypingArea) :
  stop_timer (set_accuracy_label a self)
  = set_accuracy_label a (stop_timer self).
Proof.
  destruct self as [d running t [id|] inp acc tl wl n qu k]; destruct running;
    reflexivity.
Qed.

Lemma stop_timer_set_wpm_label (w : wpm_text) (self : TypingArea) :
  stop_timer (set_wpm_label w self) = set_wpm_label w (stop_timer self).
Proof.
  destruct self as [d running t [id|] inp acc tl wl n qu k]; destruct running;
    reflexivity.
Qed.

Lemma finish_unfold input_text sentence total self :
  finish input_text sentence total self
  = finish_with (AccuracyScore (score total sentence))
      (Qeq_bool (score total sentence) 100)
      (wpm_of input_text (time_elapsed self)) self.
Proof. reflexivity. Qed.

Lemma finish_with_time_elapsed a stop w self :
  time_elapsed (finish_with a stop w self) = time_elapsed self.
Proof.
  unfold finish_with. destruct stop; [|reflexivity].
  cbn [set_wpm_label time_elapsed]. rewrite stop_timer_time_elapsed. reflexivity.
Qed.

Lemma finish_with_set_accuracy_label a stop w b self :
  finish_with a stop w (set_accuracy_label b self) = finish_with a stop w self.
Proof. reflexivity. Qed.

Lemma finish_with_twice a stop w self :
  finish_with a stop w (finish_with a stop w self) = finish_with a stop w self.
Proof.
  unfold finish_with. destruct stop; [|reflexivity].
  rewrite !stop_timer_set_accuracy_label, stop_timer_set_wpm_label,
    stop_timer_set_accuracy_label, stop_timer_twice.
  reflexivity.
Qed.

Lemma finish_set_accuracy_label input_text sentence total a self :
  finish input_text sentence total (set_accuracy_label a self)
  = finish input_text sentence total self.
Proof. reflexivity. Qed.

Lemma finish_time_elapsed input_text sentence total self :
  time_elapsed (finish input_text sentence total self) = time_elapsed self.
Proof. rewrite finish_unfold. apply finish_with_time_elapsed. Qed.

Lemma finish_twice input_text sentence total self :
  finish input_text sentence total (finish input_text sentence total self)
  = finish input_text sentence total self.
Proof.
  rewrite (finish_unfold input_text sentence total
             (finish input_text sentence total self)).
  rewrite finish_time_elapsed. rewrite finish_unfold.
  apply finish_with_twice.
Qed.

Lemma check_accuracy_loop_returns (input_text sentence : str) (chars : str) :
  forall (i correct_chars : nat) (self : TypingArea),
    (correct_chars <= i)%nat ->
    (correct_chars <= List.length sentence)%nat ->
    check_accuracy_loop input_text sentence i chars correct_chars self
    = Return match chars with
             | [] => self
             | _ :: _ =>
                 finish input_text sentence
                   (correct_chars + count_correct sentence i chars) self
             end.
Proof.
  induction chars as [|c rest IH]; intros i correct self Hi HL; [reflexivity|].
  cbn [check_accuracy_loop count_correct].
  set (correct' := if char_matches sentence i c then S correct else correct).
  assert (correct + ((if char_matches sentence i c then 1 else 0)
                     + count_correct sentence (S i) rest)
          = correct' + count_correct sentence (S i) rest)%nat as ->
    by (unfold correct'; destruct (char_matches sentence i c); lia).
  assert (correct' <= S i)%nat as Hi'
    by (unfold correct'; destruct (char_matches sentence i c); lia).
  assert (correct' <= List.length sentence)%nat as HL'.
  { unfold correct', char_matches.
    destruct (nth_error sentence i) as [d|] eqn:E; [|assumption].
    assert (i < List.length sentence)%nat by (apply nth_error_Some; congruence).
    destruct (N.eqb c d); lia. }
  rewrite accuracy_expr_returns. cbn [bind].
  pose proof (count_correct_bound sentence rest (S i)) as Hb.
  destruct (Qeq_bool (score correct' sentence) 100) eqn:Hhit.
  - rewrite calculate_wpm_returns. cbn [bind].
    rewrite (IH (S i) correct' _ Hi' HL').
    apply score_complete_iff in Hhit as Hfull. destruct Hfull as [_ Hfull].
    assert (correct' + count_correct sentence (S i) rest = correct')%nat as Etot by lia.
    rewrite Etot.
    assert (set_wpm_label
              (wpm_of input_text
                 (time_elapsed
                    (stop_timer
                       (set_accuracy_label
                          (AccuracyScore (score correct' sentence)) self))))
              (stop_timer
                 (set_accuracy_label (AccuracyScore (score correct' sentence)) self))
            = finish input_text sentence correct' self) as ->.
    { rewrite finish_unfold, Hhit. unfold finish_with.
      rewrite stop_timer_time_elapsed. reflexivity. }
    destruct rest; [reflexivity|f_equal; apply finish_twice].
  - cbn [bind]. rewrite (IH (S i) correct' _ Hi' HL').
    destruct rest as [|c2 r2].
    + cbn [count_correct]. rewrite Nat.add_0_r, finish_unfold, Hhit.
      reflexivity.
    + f_equal.
Qed.

Lemma check_accuracy_returns (self : TypingArea) :
  check_accuracy self = Return (after_input self).
Proof.
  unfold check_accuracy, after_input.
  rewrite check_accuracy_loop_returns by lia. cbn [bind].
  rewrite calculate_wpm_returns. f_equal. f_equal. f_equal.
  destruct (input_area self); [reflexivity|].
  cbn [Nat.add]. apply finish_time_elapsed.
Qed.

Lemma stop_timer_fields (self : TypingArea) :
  timer_running (stop_timer self) = false
  /\ timer_id (stop_timer self) = timer_id self
  /\ accuracy_label (stop_timer self) = accuracy_label self
  /\ input_area (stop_timer self) = input_area self
  /\ sentence_display (stop_timer self) = sentence_display self.
Proof.
  destruct self as [d running t [id|] inp acc tl wl n qu k]; destruct running;
    repeat split.
Qed.

Lemma finish_with_accuracy_label a stop w self :
  accuracy_label (finish_with a stop w self) = a.
Proof.
  unfold finish_with. destruct stop; [|reflexivity].
  rewrite stop_timer_set_accuracy_label. reflexivity.
Qed.

Lemma after_input_accuracy_label (self : TypingArea) :
  accuracy_label (after_input self)
  = match accuracy_of (get_sentence (sentence_display self)) (input_area self) with
    | Some q => AccuracyScore q
    | None => accuracy_label self
    end.
Proof.
  unfold after_input, accuracy_of. destruct (input_area self); [reflexivity|].
  cbn [accuracy_label set_wpm_label]. rewrite finish_unfold.
  apply finish_with_accuracy_label.
Qed.

Lemma after_input_time_elapsed (self : TypingArea) :
  time_elapsed (after_input self) = time_elapsed self.
Proof.
  unfold after_input. destruct (input_area self); [reflexivity|].
  cbn [time_elapsed set_wpm_label]. apply finish_time_elapsed.
Qed.

Lemma after_input_wpm_label (self : TypingArea) :
  wpm_label (after_input self) = wpm_of (input_area self) (time_elapsed self).
Proof. reflexivity. Qed.

(** An event that computes no accuracy of 100 leaves timer and queue alone. *)
Lemma after_input_incomplete (self : TypingArea) :
  (forall q, accuracy_of (get_sentence (sentence_display self)) (input_area self)
             = Some q -> Qeq_bool q 100 = false) ->
  timer_running (after_input self) = timer_running self
  /\ after_queue (after_input self) = after_queue self.
Proof.
  unfold after_input, accuracy_of. destruct (input_area self) as [|c rest].
  - intros _. split; reflexivity.
  - intros H. rewrite finish_unfold, (H _ eq_refl). split; reflexivity.
Qed.

(** An event that computes an accuracy of 100 stops the timer and cancels
    the callback registered under [timer_id]. *)
Lemma after_input_complete (self : TypingArea) (q : Q) :
  accuracy_of (get_sentence (sentence_display self)) (input_area self) = Some q ->
  Qeq_bool q 100 = true ->
  timer_running (after_input self) = false
  /\ after_queue (after_input self) = after_queue (stop_timer self)
  /\ timer_id (after_input self) = timer_id self
  /\ input_area (after_input self) = input_area self.
Proof.
  unfold after_input, accuracy_of. destruct (input_area self) as [|c rest] eqn:Ei;
    [discriminate|].
  intros Hq H.
  assert (score (count_correct (get_sentence (sentence_display self)) 0 (c :: rest))
            (get_sentence (sentence_display self)) = q) as E by congruence.
  rewrite finish_unfold, E, H. unfold finish_with.
  rewrite stop_timer_set_accuracy_label.
  cbn [timer_running after_queue timer_id input_area set_wpm_label
       set_accuracy_label].
  destruct (stop_timer_fields self) as (Hr & Hid & _ & Hin & _).
  repeat split; congruence.
Qed.

Lemma stop_timer_cancels (self : TypingArea) (id : after_id) :
  timer_id self = Some id ->
  timer_running (stop_timer self) = false
  /\ ~ In id (pending (stop_timer self)).
Proof.
  intros Hid. unfold stop_timer.
  assert (timer_id (if timer_running self
                    then set_timer_running false self else self) = Some id) as ->
    by (destruct (timer_running self); exact Hid).
  split; [destruct (timer_running self) eqn:E; [reflexivity|exact E]|].
  unfold pending. intros Hin. apply in_map_iff in Hin.
  destruct Hin as ([i due] & Hfst & Hin). cbn [fst] in Hfst. subst i.
  assert (In (id, due)
            (filter (fun e => negb (Nat.eqb (fst e) id)) (after_queue self))) as Hf
    by (destruct (timer_running self); exact Hin).
  apply filter_In in Hf. destruct Hf as [_ Hf]. cbn [fst] in Hf.
  rewrite Nat.eqb_refl in Hf. discriminate.
Qed.

Lemma skipn_nth_error {A} (l : list A) (i : nat) (x : A) :
  nth_error l i = Some x -> skipn i l = x :: skipn (S i) l.
Proof.
  revert l. induction i as [|i IH]; intros [|y l] H; try discriminate.
  - cbn in H. injection H as ->. reflexivity.
  - cbn [nth_error] in H. apply IH in H. exact H.
Qed.

Lemma count_correct_prefix (sentence input_text : str) :
  firstn (List.length sentence) input_text = sentence ->
  count_correct sentence 0 input_text = List.length sentence.
Proof.
  intros H.
  rewrite <- (firstn_skipn (List.length sentence) input_text) at 1.
  rewrite count_correct_app, H.
  pose proof (count_correct_matched [] sentence []) as Hm.
  cbn [app List.length] in Hm. rewrite app_nil_r in Hm. rewrite Hm.
  pose proof (count_correct_bound sentence
                (skipn (List.length sentence) input_text)
                (0 + List.length sentence)).
  lia.
Qed.

Lemma count_correct_full (sentence chars : str) (i : nat) :
  (i <= List.length sentence)%nat ->
  count_correct sentence i chars = (List.length sentence - i)%nat ->
  firstn (List.length sentence - i) chars = skipn i sentence.
Proof.
  revert i. induction chars as [|c rest IH]; intros i Hi Hc.
  - cbn [count_correct] in Hc. assert (i = List.length sentence) as -> by lia.
    rewrite Nat.sub_diag, skipn_all. reflexivity.
  - cbn [count_correct] in Hc.
    pose proof (count_correct_bound sentence rest (S i)) as Hb.
    unfold char_matches in Hc.
    destruct (nth_error sentence i) as [d|] eqn:E.
    + assert (i < List.length sentence)%nat as Hlt
        by (apply nth_error_Some; congruence).
      destruct (N.eqb_spec c d) as [->|]; [|lia].
      rewrite (skipn_nth_error _ _ E).
      replace (List.length sentence - i)%nat
        with (S (List.length sentence - S i)) by lia.
      cbn [firstn]. f_equal. apply IH; lia.
    + apply nth_error_None in E.
      assert (i = List.length sentence) as -> by lia.
      rewrite Nat.sub_diag, skipn_all. reflexivity.
Qed.

(** An accuracy of 100 is computed exactly when the sentence is not empty
    and the input begins with the whole of it. *)
Lemma accuracy_of_complete_iff (sentence input_text : str) :
  (exists q, accuracy_of sentence input_text = Some q /\ q == 100)
  <-> sentence <> [] /\ firstn (List.length sentence) input_text = sentence.
Proof.
  split.
  - intros (q & Hq & H100). unfold accuracy_of in Hq.
    destruct input_text as [|c rest] eqn:Ei; [discriminate|].
    injection Hq as <-. apply Qeq_bool_iff, score_complete_iff in H100.
    destruct H100 as [Hne Hfull]. split; [exact Hne|].
    pose proof (count_correct_full sentence (c :: rest) (Nat.le_0_l _)) as Hf.
    rewrite Nat.sub_0_r in Hf. apply Hf. exact Hfull.
  - intros [Hne Hpre]. unfold accuracy_of.
    destruct input_text as [|c rest] eqn:Ei.
    + rewrite firstn_nil in Hpre. congruence.
    + eexists. split; [reflexivity|].
      apply Qeq_bool_iff, score_complete_iff. split; [exact Hne|].
      apply count_correct_prefix. exact Hpre.
Qed.

(** ** Accuracy shown after an input change *)

Lemma check_accuracy_empty_input (self : TypingArea) :
  input_area self = [] ->
  check_accuracy self
  = Return (set_wpm_label (wpm_of [] (time_elapsed self)) self).
Proof.
  intros H. rewrite check_accuracy_returns. unfold after_input. rewrite H.
  reflexivity.
Qed.

(** The part of C1 the code keeps: once at least one character is typed,
    an input made of the first [k] characters of the sentence followed by
    characters that differ from it position by position is shown with
    accuracy [k / L * 100]. *)
Lemma check_accuracy_prefix_score (self : TypingArea) (matched tail wrong : str) :
  get_sentence (sentence_display self) = matched ++ tail ->
  input_area self = matched ++ wrong ->
  (forall j c, nth_error wrong j = Some c -> nth_error tail j <> Some c) ->
  matched ++ tail <> [] ->
  matched ++ wrong <> [] ->
  exists self',
    check_accuracy self = Return self'
    /\ accuracy_label self'
       = AccuracyScore (of_len (List.length matched)
                        / of_len (List.length (matched ++ tail)) * 100).
Proof.
  intros Hs Hi Hwrong HL HM. eexists. split; [apply check_accuracy_returns|].
  rewrite after_input_accuracy_label, Hs, Hi. unfold accuracy_of.
  destruct (matched ++ wrong) as [|c rest] eqn:E; [congruence|]. rewrite <- E.
  rewrite count_correct_app.
  pose proof (count_correct_matched [] matched tail) as Hm.
  cbn [app List.length] in Hm. rewrite Hm.
  rewrite count_correct_wrong.
  - rewrite Nat.add_0_r. unfold score.
    destruct (matched ++ tail); [congruence|reflexivity].
  - intros j d Hj. cbn [Nat.add]. rewrite nth_error_app2 by lia.
    replace (List.length matched + j - List.length matched)%nat with j by lia.
    apply Hwrong. exact Hj.
Qed.

Example check_accuracy_prefix_score_example :
  exists self',
    handle (KeyRelease (lit "abXY")) (fresh (lit "abcde")) = Return self'
    /\ accuracy_label self' = AccuracyScore (of_len 2 / of_len 5 * 100).
Proof. eexists. split; [vm_compute; reflexivity|reflexivity]. Qed.

(** C1, at the input the code misses. Target "ab": after "a" is typed the
    label shows 1/2*100 = 50; when the entry is emptied the loop body
    does not run, so the label still shows 50 and not 0. On a fresh
    session an emptied entry leaves the initial text "Accuracy: 100%". *)
Theorem check_accuracy_empty_input_keeps_label :
  exists s1 s2 s3,
    run [FocusIn; KeyRelease (lit "a")] (fresh (lit "ab")) = Return s1
    /\ accuracy_label s1 = AccuracyScore (score 1 (lit "ab"))
    /\ handle (KeyRelease []) s1 = Return s2
    /\ input_area s2 = []
    /\ accuracy_label s2 = AccuracyScore (score 1 (lit "ab"))
    /\ score 1 (lit "ab") == 50
    /\ ~ score 1 (lit "ab") == 0
    /\ handle (KeyRelease []) (fresh (lit "ab")) = Return s3
    /\ accuracy_label s3 = AccuracyInitial.
Proof.
  do 3 eexists.
  split; [vm_compute; reflexivity|].
  split; [reflexivity|].
  split; [vm_compute; reflexivity|].
  split; [reflexivity|].
  split; [reflexivity|].
  split; [vm_compute; reflexivity|].
  split; [intros H; vm_compute in H; discriminate|].
  split; [vm_compute; reflexivity|reflexivity].
Qed.

(** The part of C8 the code keeps. Against an empty sentence line 113
    evaluates to 0 for every count of correct characters, without
    raising; [check_accuracy] returns for every input, every accuracy it
    computes is 0, which is what the label shows as soon as the input
    holds a character, and the timer is left as it was. *)
Theorem check_accuracy_empty_sentence (self : TypingArea) :
  get_sentence (sentence_display self) = [] ->
  (forall correct_chars, accuracy_expr correct_chars [] = Return 0)
  /\ exists self',
       check_accuracy self = Return self'
       /\ (forall q, accuracy_of [] (input_area self) = Some q -> q = 0)
       /\ (input_area self <> [] -> accuracy_label self' = AccuracyScore 0)
       /\ timer_running self' = timer_running self.
Proof.
  intros Hs. split; [reflexivity|].
  eexists. split; [apply check_accuracy_returns|].
  assert (forall q, accuracy_of [] (input_area self) = Some q -> q = 0) as Hq.
  { unfold accuracy_of. destruct (input_area self); [discriminate|].
    intros q [= <-]. reflexivity. }
  split; [exact Hq|]. split.
  - intros Hne. rewrite after_input_accuracy_label, Hs.
    destruct (accuracy_of [] (input_area self)) as [q|] eqn:E.
    + rewrite (Hq q eq_refl). reflexivity.
    + unfold accuracy_of in E. destruct (input_area self); congruence.
  - apply after_input_incomplete. rewrite Hs. intros q Hsome.
    rewrite (Hq q Hsome). reflexivity.
Qed.

Lemma check_accuracy_empty_sentence_witness :
  exists self',
    handle (KeyRelease (lit "xyz")) (fresh []) = Return self'
    /\ accuracy_label self' = AccuracyScore 0.
Proof.
  destruct (check_accuracy_empty_sentence
              (set_input_area (lit "xyz") (fresh [])) eq_refl)
    as (_ & self' & Hret & _ & Hlabel & _).
  exists self'. split; [exact Hret|]. apply Hlabel. discriminate.
Defined.

(** C8, at the input the code misses. Empty sentence and empty entry: a
    key release returns without raising but the loop body does not run,
    no accuracy is computed and the label keeps the text it had, the
    initial "Accuracy: 100%" on a new session and after a restart onto
    the empty sentence, where 0 is expected. With one character in the
    entry the label does show 0. *)
Theorem check_accuracy_empty_sentence_empty_input :
  exists s1 s2 s3,
    handle (KeyRelease []) (fresh []) = Return s1
    /\ get_sentence (sentence_display s1) = []
    /\ input_area s1 = []
    /\ accuracy_label s1 = AccuracyInitial
    /\ run [FocusIn; Restart 0; KeyRelease []] (fresh []) = Return s2
    /\ get_sentence (sentence_display s2) = []
    /\ accuracy_label s2 = AccuracyInitial
    /\ handle (KeyRelease (lit "x")) (fresh []) = Return s3
    /\ accuracy_label s3 = AccuracyScore 0.
Proof.
  do 3 eexists.
  split; [vm_compute; reflexivity|].
  split; [reflexivity|]. split; [reflexivity|]. split; [reflexivity|].
  split; [vm_compute; reflexivity|].
  split; [reflexivity|]. split; [reflexivity|].
  split; [vm_compute; reflexivity|reflexivity].
Qed.

(** ** Completion *)

(** C2. When the accuracy an input-change event computes is 100 (the
    sentence is not empty and the input begins with the whole of it), a
    running session is stopped: the flag is cleared, the callback
    registered under [timer_id] is no longer pending, a tick delivered
    from then on changes nothing and re-arms nothing, and the WPM label
    is the one [calculate_wpm] gives for the current input and the
    elapsed time of that moment. *)
Theorem check_accuracy_completion (self : TypingArea) (q : Q) :
  timer_running self = true ->
  accuracy_of (get_sentence (sentence_display self)) (input_area self) = Some q ->
  q == 100 ->
  exists self',
    check_accuracy self = Return self'
    /\ accuracy_label self' = AccuracyScore q
    /\ (get_sentence (sentence_display self) <> []
        /\ firstn (List.length (get_sentence (sentence_display self)))
             (input_area self) = get_sentence (sentence_display self))
    /\ timer_running self' = false
    /\ (forall id, timer_id self = Some id -> ~ In id (pending self'))
    /\ update_timer self' = Return self'
    /\ time_elapsed self' = time_elapsed self
    /\ input_area self' = input_area self
    /\ calculate_wpm (input_area self) self' = Return self'
    /\ wpm_label self' = wpm_of (input_area self) (time_elapsed self).
Proof.
  intros Hrun Hq H100. exists (after_input self).
  split; [apply check_accuracy_returns|].
  split; [rewrite after_input_accuracy_label, Hq; reflexivity|].
  split; [apply accuracy_of_complete_iff; exists q; split; assumption|].
  apply Qeq_bool_iff in H100.
  destruct (after_input_complete self Hq H100) as (Hstop & Hqueue & Hid & Hin).
  split; [exact Hstop|]. split.
  - intros id Hsome. unfold pending. rewrite Hqueue.
    apply (stop_timer_cancels self Hsome).
  - split; [apply update_timer_stopped; exact Hstop|].
    split; [apply after_input_time_elapsed|].
    split; [exact Hin|].
    split; [|reflexivity].
    rewrite calculate_wpm_returns, after_input_time_elapsed. reflexivity.
Qed.

Lemma check_accuracy_completion_witness :
  exists s1 s2,
    run [FocusIn] (fresh (lit "ab")) = Return s1
    /\ pending s1 = [0%nat]
    /\ handle (KeyRelease (lit "ab")) s1 = Return s2
    /\ timer_running s2 = false
    /\ pending s2 = []
    /\ wpm_shown (wpm_label s2) == 60.
Proof.
  pose (s1 := tick (set_timer_running true (fresh (lit "ab")))).
  destruct (@check_accuracy_completion (set_input_area (lit "ab") s1)
              (score 2 (lit "ab")) eq_refl eq_refl)
    as (s2 & Hret & _ & _ & Hstop & Hcancel & _ & _ & _ & _ & Hwpm).
  { vm_compute. reflexivity. }
  exists s1, s2. split; [reflexivity|]. split; [reflexivity|].
  split; [exact Hret|]. split; [exact Hstop|]. split.
  - rewrite check_accuracy_returns in Hret. injection Hret as <-. reflexivity.
  - rewrite Hwpm. vm_compute. reflexivity.
Defined.

(** ** Ticks after the timer has stopped *)

Lemma deliver_stopped (d : delivery) (self : TypingArea) :
  timer_running self = false ->
  exists self',
    deliver d self = Return self'
    /\ timer_running self' = false
    /\ time_elapsed self' = time_elapsed self
    /\ (List.length (after_queue self') <= List.length (after_queue self))%nat.
Proof.
  intros H. destruct d as [id|]; cbn [deliver].
  - unfold fire. destruct (due_time id self) as [due|].
    + eexists. split; [apply update_timer_stopped; exact H|].
      cbn. split; [exact H|]. split; [reflexivity|]. apply filter_length_le.
    + exists self. repeat split; [exact H|lia].
  - exists self. split; [apply update_timer_stopped; exact H|].
    repeat split; [exact H|lia].
Qed.

Lemma deliver_all_stopped (ds : list delivery) (self : TypingArea) :
  timer_running self = false ->
  exists self',
    deliver_all ds self = Return self'
    /\ timer_running self' = false
    /\ time_elapsed self' = time_elapsed self.
Proof.
  revert self. induction ds as [|d ds IH]; intros self H.
  - exists self. repeat split. exact H.
  - destruct (deliver_stopped d self H) as (s1 & Hd & Hrun & Ht & _).
    destruct (IH s1 Hrun) as (s2 & Hds & Hrun2 & Ht2).
    exists s2. cbn [deliver_all]. rewrite Hd. cbn [bind].
    split; [exact Hds|]. split; [exact Hrun2|]. congruence.
Qed.

(** C5, for a sentence that is not empty. Once an input-change event
    finds the input equal to the sentence the timer is stopped, and
    whatever ticks are delivered afterwards, scheduled or stray, the
    elapsed time stays what it was at that event. *)
Theorem full_match_freezes_elapsed (self : TypingArea) (ds : list delivery) :
  get_sentence (sentence_display self) <> [] ->
  input_area self = get_sentence (sentence_display self) ->
  exists self' self'',
    check_accuracy self = Return self'
    /\ timer_running self' = false
    /\ time_elapsed self' = time_elapsed self
    /\ deliver_all ds self' = Return self''
    /\ timer_running self'' = false
    /\ time_elapsed self'' = time_elapsed self'.
Proof.
  intros Hne Heq.
  destruct (proj2 (accuracy_of_complete_iff
                     (get_sentence (sentence_display self)) (input_area self)))
    as (q & Hq & H100).
  { split; [exact Hne|]. rewrite Heq. apply firstn_all. }
  apply Qeq_bool_iff in H100.
  destruct (after_input_complete self Hq H100) as (Hstop & _).
  destruct (deliver_all_stopped ds (after_input self) Hstop)
    as (s2 & Hds & Hrun2 & Ht2).
  exists (after_input self), s2.
  split; [apply check_accuracy_returns|].
  split; [exact Hstop|]. split; [apply after_input_time_elapsed|].
  split; [exact Hds|]. split; [exact Hrun2|exact Ht2].
Qed.

Lemma full_match_freezes_elapsed_witness :
  exists s1 s2 s3,
    run [FocusIn; Fire 0] (fresh (lit "ab")) = Return s1
    /\ time_elapsed s1 = 2%Z
    /\ handle (KeyRelease (lit "ab")) s1 = Return s2
    /\ deliver_all [Scheduled 1; Stray; Stray] s2 = Return s3
    /\ time_elapsed s3 = 2%Z.
Proof.
  pose (s1 := tick (set_now 1000
                      (after_cancel 0
                         (tick (set_timer_running true (fresh (lit "ab"))))))).
  destruct (@full_match_freezes_elapsed (set_input_area (lit "ab") s1)
              [Scheduled 1%nat; Stray; Stray])
    as (s2 & s3 & Hret & _ & Ht & Hds & _ & Ht3);
    [discriminate|reflexivity|].
  exists s1, s2, s3.
  split; [vm_compute; reflexivity|]. split; [reflexivity|].
  split; [exact Hret|].
  split; [exact Hds|rewrite Ht3, Ht; reflexivity].
Defined.

(** C5, as stated, fails for the empty sentence: the input equals it from
    the start, no key release stops the timer, and the next tick moves
    the elapsed time from 1 to 2. *)
Lemma empty_sentence_never_stops :
  exists s1 s2,
    run [FocusIn; KeyRelease []] (fresh []) = Return s1
    /\ input_area s1 = get_sentence (sentence_display s1)
    /\ timer_running s1 = true
    /\ time_elapsed s1 = 1%Z
    /\ deliver (Scheduled 0) s1 = Return s2
    /\ time_elapsed s2 = 2%Z.
Proof.
  do 2 eexists.
  split; [vm_compute; reflexivity|].
  repeat split.
Qed.

(** ** Stopping, resetting and restarting *)

(** [stop_timer] removes from the queue the one callback it knows of. *)
Lemma stop_timer_queue (self : TypingArea) :
  after_queue (stop_timer self)
  = match timer_id self with
    | Some id => filter (fun e => negb (Nat.eqb (fst e) id)) (after_queue self)
    | None => after_queue self
    end.
Proof.
  destruct self as [d running t [id|] inp acc tl wl n qu k]; destruct running;
    reflexivity.
Qed.

(** [reset_timer] clears the flag and the count and cancels nothing. *)
Lemma reset_timer_keeps_queue (self : TypingArea) :
  after_queue (reset_timer self) = after_queue self
  /\ timer_running (reset_timer self) = false
  /\ time_elapsed (reset_timer self) = 0%Z.
Proof. repeat split. Qed.

(** [restart_program] keeps every pending callback, adds one of its own
    and leaves the timer running with one second counted. *)
Lemma restart_program_keeps_queue (r : nat) (self self' : TypingArea) :
  restart_program r self = Return self' ->
  after_queue self'
  = after_queue self ++ [(after_count self, (now self + 1000)%Z)]
  /\ timer_running self' = true
  /\ time_elapsed self' = 1%Z
  /\ input_area self' = [].
Proof.
  unfold restart_program.
  destruct (display_sentence (sentence_display (set_input_area [] (reset_timer self))) r)
    as [d|e]; cbn [bind]; [|discriminate].
  rewrite start_timer_stopped by reflexivity.
  intros [= <-]. repeat split.
Qed.

(** What a restart leaves when nothing was pending is what the first
    focus leaves on a new session: one second counted, the empty input,
    the initial accuracy text and one callback a second ahead. *)
Lemma restart_program_quiescent (r : nat) (self self' : TypingArea) :
  after_queue self = [] ->
  restart_program r self = Return self' ->
  timer_running self' = true
  /\ time_elapsed self' = 1%Z
  /\ input_area self' = []
  /\ accuracy_label self' = AccuracyInitial
  /\ timer_label self' = TimeElapsed 1
  /\ wpm_label self' = wpm_of [] 1
  /\ after_queue self' = [(after_count self, (now self + 1000)%Z)].
Proof.
  intros Hq. unfold restart_program.
  destruct (display_sentence (sentence_display (set_input_area [] (reset_timer self))) r)
    as [d|e]; cbn [bind]; [|discriminate].
  rewrite start_timer_stopped by reflexivity.
  intros [= <-]. cbn. rewrite Hq. repeat split.
Qed.

Lemma first_focus_state (target : str) :
  exists self',
    handle FocusIn (fresh target) = Return self'
    /\ timer_running self' = true
    /\ time_elapsed self' = 1%Z
    /\ input_area self' = []
    /\ accuracy_label self' = AccuracyInitial
    /\ timer_label self' = TimeElapsed 1
    /\ wpm_label self' = wpm_of [] 1
    /\ after_queue self' = [(0%nat, 1000%Z)].
Proof. eexists. split; [apply start_timer_stopped; reflexivity|]. repeat split. Qed.

(** C4, at the input the code misses. The timer is started and the
    restart button is pressed: [reset_timer] leaves the callback 0 of the
    old session in the queue, [restart_program] registers callback 1
    beside it, and when callback 0 comes due it finds the flag set again,
    counts a second of the new session and re-arms itself. *)
Theorem restart_keeps_stale_tick :
  exists s1 s2 s3,
    handle FocusIn (fresh (lit "abc")) = Return s1
    /\ after_queue s1 = [(0%nat, 1000%Z)]
    /\ timer_running (reset_timer s1) = false
    /\ after_queue (reset_timer s1) = [(0%nat, 1000%Z)]
    /\ handle (Restart 0) s1 = Return s2
    /\ timer_running s2 = true
    /\ time_elapsed s2 = 1%Z
    /\ after_queue s2 = [(0%nat, 1000%Z); (1%nat, 1000%Z)]
    /\ handle (Fire 0) s2 = Return s3
    /\ time_elapsed s3 = 2%Z
    /\ after_queue s3 = [(1%nat, 1000%Z); (2%nat, 2000%Z)].
Proof.
  exists (tick (set_timer_running true (fresh (lit "abc")))).
  eexists. eexists.
  split; [reflexivity|]. split; [reflexivity|].
  split; [reflexivity|]. split; [reflexivity|].
  split; [vm_compute; reflexivity|].
  split; [reflexivity|]. split; [reflexivity|]. split; [reflexivity|].
  split; [vm_compute; reflexivity|].
  split; reflexivity.
Qed.

(** C6, at the input the code misses. One second after the first focus a
    new session has counted 2 seconds and has one callback pending; one
    second after a restart pressed while the timer runs the session has
    counted 3 seconds and has two callbacks pending. *)
Theorem restart_doubles_cadence :
  exists started restarted,
    run [FocusIn; Fire 0] (fresh (lit "abc")) = Return started
    /\ now started = 1000%Z
    /\ time_elapsed started = 2%Z
    /\ pending started = [1%nat]
    /\ run [FocusIn; Restart 0; Fire 0; Fire 1] (fresh (lit "abc"))
       = Return restarted
    /\ now restarted = 1000%Z
    /\ time_elapsed restarted = 3%Z
    /\ pending restarted = [2%nat; 3%nat]
    /\ input_area restarted = input_area started
    /\ timer_running restarted = timer_running started.
Proof.
  do 2 eexists.
  split; [vm_compute; reflexivity|].
  split; [reflexivity|]. split; [reflexivity|]. split; [reflexivity|].
  split; [vm_compute; reflexivity|].
  repeat split.
Qed.

(** * Further properties of the code *)

(** ** What each handler leaves *)

Lemma stop_timer_frame (self : TypingArea) :
  timer_label (stop_timer self) = timer_label self
  /\ wpm_label (stop_timer self) = wpm_label self
  /\ now (stop_timer self) = now self
  /\ after_count (stop_timer self) = after_count self.
Proof.
  destruct self as [d running t [id|] inp acc tl wl n qu k]; destruct running;
    repeat split.
Qed.

Lemma finish_with_frame a stop w self :
  sentence_display (finish_with a stop w self) = sentence_display self
  /\ time_elapsed (finish_with a stop w self) = time_elapsed self
  /\ timer_id (finish_with a stop w self) = timer_id self
  /\ input_area (finish_with a stop w self) = input_area self
  /\ timer_label (finish_with a stop w self) = timer_label self
  /\ now (finish_with a stop w self) = now self
  /\ after_count (finish_with a stop w self) = after_count self.
Proof.
  unfold finish_with. destruct stop; [|repeat split].
  rewrite stop_timer_set_accuracy_label.
  cbn [set_wpm_label set_accuracy_label sentence_display time_elapsed timer_id
       input_area timer_label now after_count].
  destruct (stop_timer_fields self) as (_ & Hid & _ & Hin & Hd).
  destruct (stop_timer_frame self) as (Htl & _ & Hn & Hk).
  rewrite stop_timer_time_elapsed. repeat split; assumption.
Qed.

(** An input change touches neither the sentence, nor the elapsed time and
    its label, nor the text of the entry. *)
Lemma after_input_frame (self : TypingArea) :
  sentence_display (after_input self) = sentence_display self
  /\ time_elapsed (after_input self) = time_elapsed self
  /\ timer_id (after_input self) = timer_id self
  /\ input_area (after_input self) = input_area self
  /\ timer_label (after_input self) = timer_label self
  /\ now (after_input self) = now self
  /\ after_count (after_input self) = after_count self.
Proof.
  unfold after_input. destruct (input_area self) as [|c rest] eqn:E.
  - cbn. rewrite E. repeat split.
  - rewrite finish_unfold.
    cbn [set_wpm_label sentence_display time_elapsed timer_id input_area
         timer_label now after_count].
    rewrite <- E. apply finish_with_frame.
Qed.

(** An input change either leaves flag and queue alone or does to them
    what [stop_timer] does. *)
Lemma after_input_cases (self : TypingArea) :
  (timer_running (after_input self) = timer_running self
   /\ after_queue (after_input self) = after_queue self)
  \/ (timer_running (after_input self) = false
      /\ after_queue (after_input self) = after_queue (stop_timer self)).
Proof.
  destruct (accuracy_of (get_sentence (sentence_display self)) (input_area self))
    as [q|] eqn:Eq.
  - destruct (Qeq_bool q 100) eqn:E100.
    + right. destruct (after_input_complete self Eq E100) as (H1 & H2 & _).
      split; assumption.
    + left. apply after_input_incomplete. intros q' Hq'. congruence.
  - left. apply after_input_incomplete. intros q' Hq'. congruence.
Qed.

Lemma handle_FocusIn (self : TypingArea) :
  handle FocusIn self
  = Return (if timer_running self then self
            else tick (set_timer_running true self)).
Proof.
  cbn [handle]. destruct (timer_running self) eqn:E.
  - apply start_timer_running. exact E.
  - apply start_timer_stopped. exact E.
Qed.

Lemma handle_KeyRelease (text : str) (self : TypingArea) :
  handle (KeyRelease text) self
  = Return (after_input (set_input_area text self)).
Proof. apply check_accuracy_returns. Qed.

Lemma handle_Fire (id : after_id) (self : TypingArea) :
  handle (Fire id) self
  = Return match due_time id self with
           | None => self
           | Some due =>
               let self' := set_now (Z.max (now self) due) (after_cancel id self) in
               if timer_running self then tick self' else self'
           end.
Proof.
  cbn [handle]. unfold fire. destruct (due_time id self) as [due|]; [|reflexivity].
  destruct (timer_running self) eqn:E.
  - apply update_timer_running. exact E.
  - apply update_timer_stopped. exact E.
Qed.

Lemma handle_Restart (r : nat) (self : TypingArea) :
  handle (Restart r) self
  = match nth_error (sentence_list (sentence_display self)) r with
    | Some sentence =>
        Return (tick
                  (set_timer_running true
                     (set_wpm_label WpmZero
                        (set_accuracy_label AccuracyInitial
                           (set_sentence_display
                              (mkSentenceDisplay
                                 (sentence_list (sentence_display self)) sentence)
                              (set_input_area [] (reset_timer self)))))))
    | None => Raise IndexError
    end.
Proof.
  cbn [handle]. unfold restart_program, display_sentence, get_random_sentence,
    choice, getitem.
  cbn [sentence_display set_input_area reset_timer set_timer_running
       set_time_elapsed set_timer_label].
  destruct (sentence_list (sentence_display self)) as [|x l] eqn:El.
  - destruct r; reflexivity.
  - destruct (nth_error (x :: l) r) as [sentence|]; cbn [bind]; [|reflexivity].
    apply start_timer_stopped. reflexivity.
Qed.

(** A property kept by every handler holds after every sequence of events;
    [ok] selects the events the sequence may hold. *)
Lemma run_invariant (ok : event -> bool) (P : TypingArea -> Prop) :
  (forall e s s', ok e = true -> P s -> handle e s = Return s' -> P s') ->
  forall es s s',
    forallb ok es = true -> P s -> run es s = Return s' -> P s'.
Proof.
  intros Hstep. induction es as [|e es IH]; intros s s' Hok HP Hrun.
  - cbn in Hrun. injection Hrun as <-. exact HP.
  - cbn [forallb] in Hok. apply andb_true_iff in Hok. destruct Hok as [He Hes].
    cbn [run] in Hrun. destruct (handle e s) as [s1|x] eqn:E1; [|discriminate].
    cbn [bind] in Hrun. apply (IH s1 s' Hes); [|exact Hrun].
    apply (Hstep e s s1 He HP E1).
Qed.

Lemma forallb_all {A} (l : list A) : forallb (fun _ => true) l = true.
Proof. induction l; [reflexivity|assumption]. Qed.

(** ** Invariants of the event loop *)

Lemma handle_sentence_display (e : event) (s s' : TypingArea) :
  handle e s = Return s' ->
  sentence_display s' = sentence_display s
  \/ exists r sentence,
       e = Restart r
       /\ nth_error (sentence_list (sentence_display s)) r = Some sentence
       /\ sentence_display s'
          = mkSentenceDisplay (sentence_list (sentence_display s)) sentence.
Proof.
  destruct e as [|text|r|id].
  - rewrite handle_FocusIn. intros [= <-]. left.
    destruct (timer_running s); reflexivity.
  - rewrite handle_KeyRelease. intros [= <-]. left.
    destruct (after_input_frame (set_input_area text s)) as (H & _). exact H.
  - rewrite handle_Restart.
    destruct (nth_error (sentence_list (sentence_display s)) r) as [sentence|] eqn:E;
      [|discriminate].
    intros [= <-]. right. exists r, sentence.
    split; [reflexivity|]. split; [exact E|reflexivity].
  - rewrite handle_Fire. intros [= <-]. left.
    destruct (due_time id s); [|reflexivity].
    destruct (timer_running s); reflexivity.
Qed.

(** X1. Whatever events follow the construction of the application, the
    corpus is never modified and the sentence on display is one of its
    sentences. *)
Theorem displayed_sentence_from_corpus
    (sentences : list str) (r : nat) (es : list event) (s0 s : TypingArea) :
  TypingSpeedApp sentences r = Return s0 ->
  run es s0 = Return s ->
  sentence_list (sentence_display s) = sentences
  /\ In (get_sentence (sentence_display s)) sentences.
Proof.
  intros Hinit Hrun.
  apply (@run_invariant (fun _ => true)
           (fun s => sentence_list (sentence_display s) = sentences
                     /\ In (get_sentence (sentence_display s)) sentences))
    with (es := es) (s := s0); [|apply forallb_all| |exact Hrun].
  - intros e s1 s2 _ [Hl Hin] Hstep.
    destruct (handle_sentence_display e s1 Hstep)
      as [->|(r' & sentence & _ & Hn & ->)]; [split; assumption|].
    cbn [sentence_list get_sentence sentence_label]. split; [exact Hl|].
    rewrite <- Hl. apply (nth_error_In _ _ Hn).
  - unfold TypingSpeedApp, SentenceDisplay_init, display_sentence,
      get_random_sentence, choice, getitem in Hinit.
    cbn [sentence_list] in Hinit.
    destruct sentences as [|x l]; [discriminate|].
    destruct (nth_error (x :: l) r) as [sentence|] eqn:E; [|discriminate].
    cbn [bind] in Hinit. injection Hinit as <-.
    cbn. split; [reflexivity|]. apply (nth_error_In _ _ E).
Qed.

Lemma displayed_sentence_from_corpus_witness :
  exists s0 s,
    TypingSpeedApp [lit "ab"; lit "cd"] 0 = Return s0
    /\ run [FocusIn; KeyRelease (lit "a"); Restart 1; Fire 0] s0 = Return s
    /\ In (get_sentence (sentence_display s)) [lit "ab"; lit "cd"].
Proof.
  destruct (TypingSpeedApp [lit "ab"; lit "cd"] 0) as [s0|x] eqn:E0;
    [|vm_compute in E0; discriminate].
  destruct (run [FocusIn; KeyRelease (lit "a"); Restart 1; Fire 0] s0)
    as [s|x] eqn:E1;
    [|vm_compute in E0; injection E0 as <-; vm_compute in E1; discriminate].
  exists s0, s. split; [reflexivity|]. split; [exact E1|].
  apply (displayed_sentence_from_corpus _ _ _ E0 E1).
Defined.

(** X2. No handler raises as long as every restart draws an index inside
    the corpus: no division by zero and no index out of range in any
    sequence of focus, key, restart and timer events. *)
Theorem events_never_raise (es : list event) (self : TypingArea) :
  draws_below (List.length (sentence_list (sentence_display self))) es = true ->
  exists s', run es self = Return s'.
Proof.
  revert self. induction es as [|e es IH]; intros self Hok.
  - exists self. reflexivity.
  - unfold draws_below in Hok. cbn [forallb] in Hok.
    apply andb_true_iff in Hok. destruct Hok as [He Hes].
    assert (exists s1, handle e self = Return s1) as (s1 & Hs1).
    { destruct e as [|text|r|id].
      - eexists. apply handle_FocusIn.
      - eexists. apply handle_KeyRelease.
      - rewrite handle_Restart. apply Nat.ltb_lt in He.
        destruct (nth_error (sentence_list (sentence_display self)) r) eqn:E.
        + eexists. reflexivity.
        + apply nth_error_None in E. lia.
      - eexists. apply handle_Fire. }
    assert (sentence_list (sentence_display s1)
            = sentence_list (sentence_display self)) as Hl.
    { destruct (handle_sentence_display e self Hs1)
        as [->|(r' & sentence & _ & _ & ->)]; reflexivity. }
    destruct (IH s1) as (s' & Hs').
    { rewrite Hl. exact Hes. }
    exists s'. cbn [run]. rewrite Hs1. exact Hs'.
Qed.

Lemma events_never_raise_witness :
  exists s',
    run [KeyRelease (lit "x"); FocusIn; Restart 0; Fire 1; KeyRelease []]
      (fresh []) = Return s'.
Proof.
  apply (events_never_raise
           [KeyRelease (lit "x"); FocusIn; Restart 0; Fire 1; KeyRelease []]
           (fresh [])).
  reflexivity.
Defined.

(** X3. In every state the application reaches the timer label shows the
    elapsed time ("Time: 0s" at 0, "Time Elapsed: ns" from 1 on), the
    elapsed time is never negative, and it is at least 1 whenever the
    timer runs. *)
Theorem timer_label_shows_elapsed
    (sentences : list str) (r : nat) (es : list event) (s0 s : TypingArea) :
  TypingSpeedApp sentences r = Return s0 ->
  run es s0 = Return s ->
  timer_label_shows s
  /\ (0 <= time_elapsed s)%Z
  /\ (timer_running s = true -> (1 <= time_elapsed s)%Z).
Proof.
  intros Hinit Hrun.
  assert (timer_label_shows s
          /\ (timer_running s = true -> (1 <= time_elapsed s)%Z)) as [H1 H2].
  { apply (@run_invariant (fun _ => true)
             (fun s => timer_label_shows s
                       /\ (timer_running s = true -> (1 <= time_elapsed s)%Z)))
      with (es := es) (s := s0); [|apply forallb_all| |exact Hrun].
    - intros e s1 s2 _ [Hshow Hpos] Hstep.
      assert (0 <= time_elapsed s1)%Z as Hnn
        by (destruct Hshow as [[-> _]|[H _]]; lia).
      assert (forall x, (0 <= time_elapsed x)%Z ->
                timer_label_shows (tick x)
                /\ (timer_running (tick x) = true -> (1 <= time_elapsed (tick x))%Z))
        as Htick.
      { intros x Hx. unfold timer_label_shows. cbn. split; [right; split|]; [lia|reflexivity|lia]. }
      destruct e as [|text|r'|id].
      + rewrite handle_FocusIn in Hstep. injection Hstep as <-.
        destruct (timer_running s1) eqn:E;
          [split; [exact Hshow|intros _; apply Hpos; reflexivity]|].
        apply Htick. exact Hnn.
      + rewrite handle_KeyRelease in Hstep. injection Hstep as <-.
        destruct (after_input_frame (set_input_area text s1))
          as (_ & Ht & _ & _ & Htl & _).
        split.
        * unfold timer_label_shows. rewrite Ht, Htl. exact Hshow.
        * rewrite Ht. intros Hr.
          destruct (after_input_cases (set_input_area text s1))
            as [[Hrun' _]|[Hrun' _]]; [|congruence].
          apply Hpos. rewrite <- Hr, Hrun'. reflexivity.
      + rewrite handle_Restart in Hstep.
        destruct (nth_error (sentence_list (sentence_display s1)) r');
          [|discriminate].
        injection Hstep as <-. apply Htick. cbn. lia.
      + rewrite handle_Fire in Hstep. injection Hstep as <-.
        destruct (due_time id s1); [|split; assumption].
        destruct (timer_running s1) eqn:E.
        * apply Htick. exact Hnn.
        * split; [exact Hshow|]. cbn. congruence.
    - unfold TypingSpeedApp in Hinit.
      destruct (SentenceDisplay_init sentences r); [|discriminate].
      cbn [bind] in Hinit. injection Hinit as <-.
      split; [left; split; reflexivity|discriminate]. }
  split; [exact H1|]. split; [|exact H2].
  destruct H1 as [[-> _]|[H _]]; lia.
Qed.

Lemma timer_label_shows_elapsed_witness :
  exists s0 s,
    TypingSpeedApp [lit "ab"] 0 = Return s0
    /\ run [FocusIn; Fire 0; KeyRelease (lit "ab"); Restart 0] s0 = Return s
    /\ timer_label_shows s.
Proof.
  destruct (TypingSpeedApp [lit "ab"] 0) as [s0|x] eqn:E0;
    [|vm_compute in E0; discriminate].
  destruct (run [FocusIn; Fire 0; KeyRelease (lit "ab"); Restart 0] s0)
    as [s|x] eqn:E1;
    [|vm_compute in E0; injection E0 as <-; vm_compute in E1; discriminate].
  exists s0, s. split; [reflexivity|]. split; [exact E1|].
  apply (timer_label_shows_elapsed _ _ _ E0 E1).
Defined.

Lemma tick_pending (x : TypingArea) :
  timer_id (tick x) = Some (after_count x)
  /\ In (after_count x) (pending (tick x))
  /\ timer_running (tick x) = timer_running x.
Proof.
  split; [reflexivity|]. split; [|reflexivity].
  unfold pending, tick, after. cbn [after_queue]. rewrite map_app.
  apply in_or_app. right. left. reflexivity.
Qed.

(** X4. A running timer never stalls: in every state reached from any
    state in which the timer does not run, if the timer runs then the
    callback kept in [timer_id] is pending. *)
Theorem running_timer_has_pending_tick (es : list event) (s0 s : TypingArea) :
  timer_running s0 = false ->
  run es s0 = Return s ->
  timer_running s = true ->
  exists id, timer_id s = Some id /\ In id (pending s).
Proof.
  intros Hidle Hrun.
  apply (@run_invariant (fun _ => true)
           (fun s => timer_running s = true ->
                     exists id, timer_id s = Some id /\ In id (pending s)))
    with (es := es) (s := s0); [|apply forallb_all| |exact Hrun].
  - intros e s1 s2 _ HP Hstep.
    assert (forall x, exists id, timer_id (tick x) = Some id
                                 /\ In id (pending (tick x))) as Htick.
    { intros x. exists (after_count x).
      destruct (tick_pending x) as (H1 & H2 & _). split; assumption. }
    destruct e as [|text|r|id].
    + rewrite handle_FocusIn in Hstep. injection Hstep as <-.
      destruct (timer_running s1) eqn:E; [intros _; apply HP; reflexivity|].
      intros _. apply Htick.
    + rewrite handle_KeyRelease in Hstep. injection Hstep as <-.
      destruct (after_input_frame (set_input_area text s1))
        as (_ & _ & Hid & _).
      destruct (after_input_cases (set_input_area text s1))
        as [[Hr Hq]|[Hr _]]; [|congruence].
      intros Hrun2. rewrite Hr in Hrun2. unfold pending. rewrite Hid, Hq.
      apply HP. exact Hrun2.
    + rewrite handle_Restart in Hstep.
      destruct (nth_error (sentence_list (sentence_display s1)) r);
        [|discriminate].
      injection Hstep as <-. intros _. apply Htick.
    + rewrite handle_Fire in Hstep. injection Hstep as <-.
      destruct (due_time id s1); [|exact HP].
      destruct (timer_running s1) eqn:E; [intros _; apply Htick|].
      cbn. congruence.
  - congruence.
Qed.

Lemma running_timer_has_pending_tick_witness :
  exists s id,
    run [FocusIn; Restart 0; Fire 1; Fire 0] (fresh (lit "ab")) = Return s
    /\ timer_id s = Some id /\ In id (pending s).
Proof.
  destruct (run [FocusIn; Restart 0; Fire 1; Fire 0] (fresh (lit "ab")))
    as [s|x] eqn:E; [|vm_compute in E; discriminate].
  destruct (@running_timer_has_pending_tick _ (fresh (lit "ab")) s eq_refl E)
    as (id & Hid & Hin).
  - vm_compute in E. injection E as <-. reflexivity.
  - exists s, id. split; [reflexivity|]. split; assumption.
Defined.

Lemma one_cadence_tick (x : TypingArea) :
  timer_running x = true -> after_queue x = [] -> one_cadence (tick x).
Proof.
  intros Hr Hq. unfold one_cadence.
  destruct (tick_pending x) as (_ & _ & ->). rewrite Hr.
  exists (after_count x), (now x + 1000)%Z. split; [reflexivity|].
  unfold tick, after. cbn [after_queue]. cbn. rewrite Hq. reflexivity.
Qed.

(** X5. Without a restart there is one cadence at most, from any state
    that has one: after every sequence of focus, key and timer events
    exactly one callback is pending while the timer runs, the one kept in
    [timer_id], and none is pending while it does not run. *)
Theorem one_cadence_without_restart (es : list event) (s0 s : TypingArea) :
  no_restart es = true ->
  one_cadence s0 ->
  run es s0 = Return s ->
  one_cadence s.
Proof.
  intros Hno Hinit Hrun.
  apply (@run_invariant
           (fun e => match e with Restart _ => false | _ => true end)
           one_cadence)
    with (es := es) (s := s0); [|exact Hno|exact Hinit|exact Hrun].
  intros e s1 s2 Hok HP Hstep. destruct e as [|text|r|id]; [| | discriminate|].
  - rewrite handle_FocusIn in Hstep. injection Hstep as <-.
    destruct (timer_running s1) eqn:E; [exact HP|].
    unfold one_cadence in HP. rewrite E in HP.
    apply one_cadence_tick; [reflexivity|exact HP].
  - rewrite handle_KeyRelease in Hstep. injection Hstep as <-.
    destruct (after_input_frame (set_input_area text s1))
      as (_ & _ & Hid & _).
    unfold one_cadence in *.
    destruct (after_input_cases (set_input_area text s1))
      as [[Hr Hq]|[Hr Hq]]; rewrite Hr, ?Hid, Hq.
    + exact HP.
    + rewrite stop_timer_queue. cbn [set_input_area timer_id after_queue].
      destruct (timer_running s1).
      * destruct HP as (id & due & -> & ->). cbn. rewrite Nat.eqb_refl.
        reflexivity.
      * rewrite HP. destruct (timer_id s1); reflexivity.
  - rewrite handle_Fire in Hstep. injection Hstep as <-.
    unfold one_cadence in HP. unfold due_time.
    destruct (timer_running s1) eqn:E.
    + destruct HP as (id0 & due & Hid & Hq). rewrite Hq. cbn [find fst].
      destruct (Nat.eqb id0 id) eqn:Eid.
      * cbn [option_map snd]. apply one_cadence_tick; [exact E|].
        cbn. rewrite Hq. cbn. rewrite Eid. reflexivity.
      * cbn [option_map]. unfold one_cadence. rewrite E.
        exists id0, due. split; assumption.
    + rewrite HP. cbn [find option_map]. unfold one_cadence. rewrite E. exact HP.
Qed.

Lemma one_cadence_without_restart_witness :
  exists s,
    run [FocusIn; Fire 0; FocusIn; KeyRelease (lit "ab"); Fire 1; FocusIn]
      (fresh (lit "ab")) = Return s
    /\ one_cadence s.
Proof.
  destruct (run [FocusIn; Fire 0; FocusIn; KeyRelease (lit "ab"); Fire 1; FocusIn]
              (fresh (lit "ab"))) as [s|x] eqn:E;
    [|vm_compute in E; discriminate].
  exists s. split; [reflexivity|].
  refine (@one_cadence_without_restart _ _ _ _ _ E); reflexivity.
Defined.

(** ** Accuracy *)

Lemma of_len_le (n m : nat) : (n <= m)%nat -> of_len n <= of_len m.
Proof. intros H. unfold of_len, Qle. cbn [Qnum Qden inject_Z]. lia. Qed.

Lemma score_le (n m : nat) (sentence : str) :
  (n <= m)%nat -> score n sentence <= score m sentence.
Proof.
  intros H. unfold score. destruct (truthy sentence); [|apply Qle_refl].
  apply Qmult_le_compat_r; [|discriminate].
  unfold Qdiv. apply Qmult_le_compat_r; [apply of_len_le; exact H|].
  apply Qinv_le_0_compat. apply (of_len_le (Nat.le_0_l _)).
Qed.

Lemma score_bounds (n : nat) (sentence : str) :
  (n <= List.length sentence)%nat ->
  0 <= score n sentence /\ score n sentence <= 100.
Proof.
  intros H. split.
  - apply Qle_trans with (score 0 sentence); [|apply score_le; lia].
    unfold score. destruct (truthy sentence); [|apply Qle_refl].
    unfold of_len at 1. cbn [Z.of_nat]. unfold Qdiv. rewrite Qmult_0_l.
    discriminate.
  - apply Qle_trans with (score (List.length sentence) sentence);
      [apply score_le; exact H|].
    destruct sentence as [|c s]; [discriminate|].
    assert (Qeq_bool (score (List.length (c :: s)) (c :: s)) 100 = true) as E
      by (apply score_complete_iff; split; [discriminate|reflexivity]).
    apply Qeq_bool_iff in E. rewrite E. apply Qle_refl.
Qed.

Lemma count_correct_le_length (sentence chars : str) :
  (count_correct sentence 0 chars <= List.length sentence)%nat.
Proof. pose proof (count_correct_bound sentence chars 0). lia. Qed.

Lemma after_input_timer_running (self : TypingArea) :
  timer_running (after_input self)
  = match accuracy_of (get_sentence (sentence_display self)) (input_area self) with
    | Some q => if Qeq_bool q 100 then false else timer_running self
    | None => timer_running self
    end.
Proof.
  destruct (accuracy_of (get_sentence (sentence_display self)) (input_area self))
    as [q|] eqn:Eq.
  - destruct (Qeq_bool q 100) eqn:E100.
    + apply (after_input_complete self Eq E100).
    + apply after_input_incomplete. intros q' Hq'. congruence.
  - apply after_input_incomplete. intros q' Hq'. congruence.
Qed.

Lemma accuracy_of_nonempty (sentence text : str) :
  text <> [] ->
  accuracy_of sentence text
  = Some (score (count_correct sentence 0 text) sentence).
Proof. destruct text; [congruence|reflexivity]. Qed.

(** X6. Whenever a key release finds a character in the entry, the
    accuracy it shows lies between 0 and 100. *)
Theorem accuracy_within_bounds (self : TypingArea) :
  input_area self <> [] ->
  exists self' q,
    check_accuracy self = Return self'
    /\ accuracy_label self' = AccuracyScore q
    /\ 0 <= q /\ q <= 100.
Proof.
  intros Hne. exists (after_input self).
  exists (score (count_correct (get_sentence (sentence_display self)) 0
                   (input_area self))
            (get_sentence (sentence_display self))).
  split; [apply check_accuracy_returns|]. split.
  - rewrite after_input_accuracy_label. unfold accuracy_of.
    destruct (input_area self); [congruence|reflexivity].
  - apply score_bounds. apply count_correct_le_length.
Qed.

Lemma accuracy_within_bounds_witness :
  exists self' q,
    handle (KeyRelease (lit "hxllo world")) (fresh (lit "hello")) = Return self'
    /\ accuracy_label self' = AccuracyScore q
    /\ 0 <= q /\ q <= 100.
Proof.
  apply (accuracy_within_bounds
           (set_input_area (lit "hxllo world") (fresh (lit "hello")))).
  discriminate.
Defined.

(** X7. Characters typed past the end of the sentence are not counted:
    once the entry holds a character and is at least as long as the
    sentence, text added at the end changes neither the accuracy shown
    nor whether the timer stops. *)
Theorem accuracy_ignores_overflow (self : TypingArea) (text extra : str) :
  text <> [] ->
  (List.length (get_sentence (sentence_display self)) <= List.length text)%nat ->
  exists s1 s2,
    handle (KeyRelease text) self = Return s1
    /\ handle (KeyRelease (text ++ extra)) self = Return s2
    /\ accuracy_label s2 = accuracy_label s1
    /\ timer_running s2 = timer_running s1.
Proof.
  intros Hne Hlen. do 2 eexists.
  split; [apply handle_KeyRelease|]. split; [apply handle_KeyRelease|].
  rewrite !after_input_accuracy_label, !after_input_timer_running.
  cbn [set_input_area input_area sentence_display timer_running].
  assert (accuracy_of (get_sentence (sentence_display self)) (text ++ extra)
          = accuracy_of (get_sentence (sentence_display self)) text) as ->.
  { rewrite !accuracy_of_nonempty
      by (try assumption; intros E; apply app_eq_nil in E; tauto).
    rewrite count_correct_app.
    pose proof (count_correct_bound (get_sentence (sentence_display self))
                  extra (0 + List.length text)) as Hb.
    replace (count_correct (get_sentence (sentence_display self))
               (0 + List.length text) extra) with 0%nat by lia.
    rewrite Nat.add_0_r. reflexivity. }
  split; reflexivity.
Qed.

Lemma accuracy_ignores_overflow_witness :
  exists s1 s2,
    handle (KeyRelease (lit "abc")) (fresh (lit "ab")) = Return s1
    /\ handle (KeyRelease (lit "abc" ++ lit "def")) (fresh (lit "ab")) = Return s2
    /\ accuracy_label s2 = accuracy_label s1
    /\ timer_running s2 = timer_running s1.
Proof.
  apply (@accuracy_ignores_overflow (fresh (lit "ab")) (lit "abc") (lit "def")).
  - discriminate.
  - cbn. lia.
Defined.

(** X8. Typing on never lowers the accuracy: the accuracy computed for a
    text with more characters added at its end is at least the accuracy
    computed for the text. *)
Theorem accuracy_grows_with_input (self : TypingArea) (text more : str) (q1 q2 : Q) :
  forall s1 s2,
    handle (KeyRelease text) self = Return s1 ->
    handle (KeyRelease (text ++ more)) self = Return s2 ->
    accuracy_label s1 = AccuracyScore q1 ->
    accuracy_label s2 = AccuracyScore q2 ->
    text <> [] ->
    q1 <= q2.
Proof.
  intros s1 s2 H1 H2 L1 L2 Hne.
  rewrite handle_KeyRelease in H1, H2. injection H1 as <-. injection H2 as <-.
  rewrite after_input_accuracy_label in L1, L2.
  cbn [set_input_area input_area sentence_display] in L1, L2.
  rewrite accuracy_of_nonempty in L1 by assumption.
  rewrite accuracy_of_nonempty in L2
    by (intros E; apply app_eq_nil in E; tauto).
  injection L1 as <-. injection L2 as <-.
  apply score_le. rewrite count_correct_app. lia.
Qed.

Lemma accuracy_grows_with_input_witness :
  score 1 (lit "abc") <= score 2 (lit "abc").
Proof.
  apply (@accuracy_grows_with_input (fresh (lit "abc")) (lit "a") (lit "bX")
           (score 1 (lit "abc")) (score 2 (lit "abc"))
           (after_input (set_input_area (lit "a") (fresh (lit "abc"))))
           (after_input (set_input_area (lit "a" ++ lit "bX") (fresh (lit "abc")))));
    try reflexivity.
  discriminate.
Defined.

(** X9. A key release stops a running timer exactly when the sentence is
    not empty and the entry begins with the whole sentence; in particular
    a correct but shorter text never stops it. *)
Theorem key_release_stops_iff_prefix (text : str) (self : TypingArea) :
  timer_running self = true ->
  exists self',
    handle (KeyRelease text) self = Return self'
    /\ (timer_running self' = false
        <-> get_sentence (sentence_display self) <> []
            /\ firstn (List.length (get_sentence (sentence_display self))) text
               = get_sentence (sentence_display self)).
Proof.
  intros Hrun. eexists. split; [apply handle_KeyRelease|].
  rewrite after_input_timer_running.
  cbn [set_input_area input_area sentence_display timer_running].
  rewrite <- accuracy_of_complete_iff.
  destruct (accuracy_of (get_sentence (sentence_display self)) text) as [q|].
  - destruct (Qeq_bool q 100) eqn:E.
    + split; [|reflexivity]. intros _. exists q. split; [reflexivity|].
      apply Qeq_bool_iff. exact E.
    + rewrite Hrun. split; [discriminate|].
      intros (q' & [= <-] & H). apply Qeq_bool_iff in H. congruence.
  - rewrite Hrun. split; [discriminate|]. intros (q' & Hq' & _). discriminate.
Qed.

Lemma key_release_stops_iff_prefix_witness :
  exists s0 s1 s2,
    handle FocusIn (fresh (lit "abc")) = Return s0
    /\ handle (KeyRelease (lit "ab")) s0 = Return s1
    /\ timer_running s1 = true
    /\ handle (KeyRelease (lit "abcd")) s0 = Return s2
    /\ timer_running s2 = false.
Proof.
  pose (s0 := tick (set_timer_running true (fresh (lit "abc")))).
  destruct (@key_release_stops_iff_prefix (lit "ab") s0 eq_refl)
    as (s1 & H1 & Hiff1).
  destruct (@key_release_stops_iff_prefix (lit "abcd") s0 eq_refl)
    as (s2 & H2 & Hiff2).
  exists s0, s1, s2. split; [reflexivity|]. split; [exact H1|]. split.
  - destruct (timer_running s1) eqn:E; [reflexivity|].
    destruct (proj1 Hiff1 eq_refl) as [_ Hpre]. discriminate Hpre.
  - split; [exact H2|]. apply Hiff2. split; [discriminate|reflexivity].
Defined.

(** ** Words *)

Lemma word_starts_blank (s : str) :
  word_starts true s = 0%nat <-> forallb isspace s = true.
Proof.
  induction s as [|c rest IH]; [split; reflexivity|].
  cbn [word_starts forallb]. destruct (isspace c); cbn [andb].
  - exact IH.
  - split; discriminate.
Qed.

Lemma split_from_blank (word ws : str) :
  forallb isspace ws = true ->
  split_from word ws = match word with [] => [] | _ => [rev word] end.
Proof.
  revert word. induction ws as [|c rest IH]; intros word H; [reflexivity|].
  cbn [forallb] in H. apply andb_true_iff in H. destruct H as [Hc Hrest].
  cbn [split_from]. rewrite Hc. rewrite (IH [] Hrest).
  destruct word; reflexivity.
Qed.

Lemma split_from_blank_suffix (word s ws : str) :
  forallb isspace ws = true ->
  split_from word (s ++ ws) = split_from word s.
Proof.
  intros H. revert word. induction s as [|c rest IH]; intros word.
  - cbn [app]. rewrite (@split_from_blank word ws H). reflexivity.
  - cbn [app split_from]. destruct (isspace c).
    + rewrite (IH []). reflexivity.
    + apply IH.
Qed.

Lemma split_from_blank_prefix (ws s : str) :
  forallb isspace ws = true ->
  split_from [] (ws ++ s) = split_from [] s.
Proof.
  induction ws as [|c rest IH]; intros H; [reflexivity|].
  cbn [forallb] in H. apply andb_true_iff in H. destruct H as [Hc Hrest].
  cbn [app split_from]. rewrite Hc. apply IH. exact Hrest.
Qed.

Lemma split_from_word (w word s : str) :
  forallb not_space w = true ->
  split_from word (w ++ s) = split_from (rev w ++ word) s.
Proof.
  revert word. induction w as [|c w IH]; intros word H; [reflexivity|].
  cbn [forallb] in H. apply andb_true_iff in H. destruct H as [Hc Hw].
  unfold not_space in Hc. apply negb_true_iff in Hc.
  cbn [app split_from]. rewrite Hc. rewrite (IH (c :: word) Hw).
  cbn [rev]. rewrite <- app_assoc. reflexivity.
Qed.

Lemma split_spaced (words : list str) :
  Forall (fun w => w <> [] /\ forallb not_space w = true) words ->
  split (spaced words) = words.
Proof.
  unfold split. induction words as [|w ws IH]; intros H; [reflexivity|].
  inversion H as [|w' ws' [Hne Hw] Hws]; subst.
  assert (rev w <> []) as Hrev.
  { intros E. apply (f_equal (@List.length _)) in E. rewrite length_rev in E.
    destruct w; [congruence|discriminate]. }
  destruct ws as [|w2 ws2].
  - cbn [spaced]. rewrite <- (app_nil_r w) at 1.
    rewrite (@split_from_word w [] [] Hw). rewrite app_nil_r. cbn [split_from].
    destruct (rev w) eqn:E; [congruence|]. rewrite <- E, rev_involutive.
    reflexivity.
  - change (spaced (w :: w2 :: ws2)) with (w ++ 32%N :: spaced (w2 :: ws2)).
    rewrite (@split_from_word w [] (32%N :: spaced (w2 :: ws2)) Hw).
    rewrite app_nil_r. cbn [split_from].
    change (isspace 32%N) with true. cbv iota.
    destruct (rev w) eqn:E; [congruence|]. rewrite <- E, rev_involutive.
    rewrite (IH Hws). reflexivity.
Qed.

Lemma wpm_value_zero_iff (n : nat) (t : Z) :
  (0 < t)%Z -> (of_len n / (of_int t / 60) == 0 <-> n = 0%nat).
Proof.
  intros Ht.
  assert (0 < of_int t / 60) as Hd.
  { apply Qlt_shift_div_l; [reflexivity|]. rewrite Qmult_0_l.
    unfold of_int, Qlt. cbn [Qnum Qden inject_Z]. lia. }
  split.
  - intros H. destruct n as [|n]; [reflexivity|]. exfalso.
    assert (0 < of_len (S n) / (of_int t / 60)) as Hpos.
    { apply Qlt_shift_div_l; [exact Hd|]. rewrite Qmult_0_l.
      unfold of_len, Qlt. cbn [Qnum Qden inject_Z]. lia. }
    rewrite H in Hpos. revert Hpos. apply Qlt_irrefl.
  - intros ->. unfold Qdiv. apply Qmult_0_l.
Qed.

(** X10. Once time has elapsed the WPM computed by [calculate_wpm], the
    number handed to the label's two-decimal format, is never negative,
    and it is 0 exactly when the entry holds nothing but white space.
    (The text of the label is not meant: a small positive value is
    printed as "0.00".) *)
Theorem wpm_zero_iff_blank (input_text : str) (self : TypingArea) :
  (0 < time_elapsed self)%Z ->
  exists self',
    calculate_wpm input_text self = Return self'
    /\ 0 <= wpm_shown (wpm_label self')
    /\ (wpm_shown (wpm_label self') == 0 <-> forallb isspace input_text = true).
Proof.
  intros Ht. eexists. split; [apply calculate_wpm_returns|].
  cbn [wpm_label set_wpm_label]. unfold wpm_of.
  apply Z.gtb_lt in Ht as Hb. rewrite Hb. cbn [wpm_shown].
  apply Z.gtb_lt in Hb. split.
  - apply Qle_shift_div_l.
    + apply Qlt_shift_div_l; [reflexivity|]. rewrite Qmult_0_l.
      unfold of_int, Qlt. cbn [Qnum Qden inject_Z]. lia.
    + rewrite Qmult_0_l. apply (of_len_le (Nat.le_0_l _)).
  - rewrite (@wpm_value_zero_iff _ _ Ht), split_length. apply word_starts_blank.
Qed.

Lemma wpm_zero_iff_blank_witness :
  exists self',
    calculate_wpm (lit "   ") (set_time_elapsed 5 (fresh (lit "ab"))) = Return self'
    /\ wpm_shown (wpm_label self') == 0.
Proof.
  destruct (@wpm_zero_iff_blank (lit "   ")
              (set_time_elapsed 5 (fresh (lit "ab"))) eq_refl)
    as (self' & Hret & _ & Hiff).
  exists self'. split; [exact Hret|]. apply Hiff. reflexivity.
Defined.

(** X11. White space before the first word and after the last one does
    not change the words counted, hence not the WPM shown. *)
Theorem wpm_ignores_surrounding_space
    (before text after_text : str) (self : TypingArea) :
  forallb isspace before = true ->
  forallb isspace after_text = true ->
  split (before ++ text ++ after_text) = split text
  /\ calculate_wpm (before ++ text ++ after_text) self = calculate_wpm text self.
Proof.
  intros Hb Ha.
  assert (split (before ++ text ++ after_text) = split text) as E.
  { unfold split. rewrite (@split_from_blank_prefix before _ Hb).
    apply split_from_blank_suffix. exact Ha. }
  split; [exact E|].
  rewrite !calculate_wpm_returns. unfold wpm_of. rewrite E. reflexivity.
Qed.

Lemma wpm_ignores_surrounding_space_witness :
  split (lit "  " ++ lit "one two" ++ lit " ") = split (lit "one two").
Proof.
  apply (@wpm_ignores_surrounding_space (lit "  ") (lit "one two") (lit " ")
           (fresh [])); reflexivity.
Defined.

(** X12. Words joined by single spaces are read back as they were: the
    entry holding [n] words, none empty and none with white space inside,
    separated by one space each, counts [n] words, and with a positive
    elapsed time the WPM shown is [n / (elapsed / 60)]. *)
Theorem spaced_words_counted (words : list str) (self : TypingArea) :
  Forall (fun w => w <> [] /\ forallb not_space w = true) words ->
  (0 < time_elapsed self)%Z ->
  split (spaced words) = words
  /\ exists self',
       calculate_wpm (spaced words) self = Return self'
       /\ wpm_label self'
          = WpmValue (of_len (List.length words)
                      / (of_int (time_elapsed self) / 60)).
Proof.
  intros Hw Ht. split; [apply split_spaced; exact Hw|].
  eexists. split; [apply calculate_wpm_returns|].
  cbn [wpm_label set_wpm_label]. unfold wpm_of.
  apply Z.gtb_lt in Ht. rewrite Ht, (@split_spaced words Hw). reflexivity.
Qed.

Lemma spaced_words_counted_witness :
  split (spaced [lit "the"; lit "quick"; lit "fox"])
  = [lit "the"; lit "quick"; lit "fox"].
Proof.
  apply (@spaced_words_counted [lit "the"; lit "quick"; lit "fox"]
           (set_time_elapsed 30 (fresh []))).
  - repeat constructor; discriminate.
  - reflexivity.
Defined.

(** ** Stopping, resuming and restarting *)

(** X13. Completion does not end the session for good: when the entry
    gets the focus again after the sentence was completed, the timer
    runs again and the elapsed time goes on from where it stopped, while
    the accuracy label still shows the completed score. *)
Theorem focus_after_completion_resumes (text : str) (self : TypingArea) :
  get_sentence (sentence_display self) <> [] ->
  firstn (List.length (get_sentence (sentence_display self))) text
  = get_sentence (sentence_display self) ->
  exists s1 s2,
    handle (KeyRelease text) self = Return s1
    /\ timer_running s1 = false
    /\ handle FocusIn s1 = Return s2
    /\ timer_running s2 = true
    /\ time_elapsed s2 = (time_elapsed self + 1)%Z
    /\ accuracy_label s2 = accuracy_label s1.
Proof.
  intros Hne Hpre.
  destruct (proj2 (accuracy_of_complete_iff
                     (get_sentence (sentence_display self)) text))
    as (q & Hq & H100); [split; assumption|].
  apply Qeq_bool_iff in H100.
  pose (s1 := after_input (set_input_area text self)).
  assert (timer_running s1 = false) as Hstop.
  { unfold s1. rewrite after_input_timer_running.
    cbn [set_input_area input_area sentence_display]. rewrite Hq, H100.
    reflexivity. }
  exists s1, (tick (set_timer_running true s1)).
  split; [apply handle_KeyRelease|]. split; [exact Hstop|].
  split; [rewrite handle_FocusIn, Hstop; reflexivity|].
  split; [reflexivity|]. split; [|reflexivity].
  cbn [tick after set_wpm_label set_timer_label set_time_elapsed
       set_timer_running time_elapsed].
  unfold s1. rewrite after_input_time_elapsed. reflexivity.
Qed.

Lemma focus_after_completion_resumes_witness :
  exists s0 s1 s2,
    run [FocusIn; Fire 0] (fresh (lit "ab")) = Return s0
    /\ time_elapsed s0 = 2%Z
    /\ handle (KeyRelease (lit "ab")) s0 = Return s1
    /\ handle FocusIn s1 = Return s2
    /\ timer_running s2 = true
    /\ time_elapsed s2 = 3%Z.
Proof.
  pose (s0 := tick (set_now 1000
                      (after_cancel 0
                         (tick (set_timer_running true (fresh (lit "ab"))))))).
  destruct (@focus_after_completion_resumes (lit "ab") s0)
    as (s1 & s2 & H1 & _ & H2 & Hrun & Ht & _);
    [discriminate|reflexivity|].
  exists s0, s1, s2.
  split; [vm_compute; reflexivity|]. split; [reflexivity|].
  split; [exact H1|]. split; [exact H2|]. split; [exact Hrun|].
  rewrite Ht. reflexivity.
Defined.

(** X14. [stop_timer] is idempotent, leaves the elapsed time alone, and
    cancels the callbacks registered under [timer_id] and no other: a
    callback is pending afterwards exactly when it was pending before
    and is not the one kept in [timer_id]. *)
Theorem stop_timer_cancels_only_timer_id (self : TypingArea) :
  stop_timer (stop_timer self) = stop_timer self
  /\ timer_running (stop_timer self) = false
  /\ time_elapsed (stop_timer self) = time_elapsed self
  /\ forall id due,
       In (id, due) (after_queue (stop_timer self))
       <-> In (id, due) (after_queue self) /\ timer_id self <> Some id.
Proof.
  split; [apply stop_timer_twice|].
  split; [apply stop_timer_fields|].
  split; [apply stop_timer_time_elapsed|].
  intros id due. rewrite stop_timer_queue.
  destruct (timer_id self) as [id0|].
  - rewrite filter_In. cbn [fst]. rewrite negb_true_iff, Nat.eqb_neq.
    split; intros [H1 H2]; (split; [exact H1|]); congruence.
  - split; [intros H; split; [exact H|discriminate]|intros [H _]; exact H].
Qed.

(** X15. A restart shows the sentence at the drawn index and starts the
    timer at once: the entry is empty, the accuracy label is back to its
    initial text, one second is already counted and shown ("Time
    Elapsed: 1s"), and the WPM shown is 0. A draw outside the corpus
    raises [IndexError]. *)
Theorem restart_program_shows_drawn_sentence (r : nat) (self : TypingArea) :
  match nth_error (sentence_list (sentence_display self)) r with
  | Some sentence =>
      exists self',
        restart_program r self = Return self'
        /\ get_sentence (sentence_display self') = sentence
        /\ sentence_list (sentence_display self')
           = sentence_list (sentence_display self)
        /\ input_area self' = []
        /\ accuracy_label self' = AccuracyInitial
        /\ timer_running self' = true
        /\ time_elapsed self' = 1%Z
        /\ timer_label self' = TimeElapsed 1
        /\ wpm_shown (wpm_label self') == 0
  | None => restart_program r self = Raise IndexError
  end.
Proof.
  pose proof (handle_Restart r self) as H. cbn [handle] in H.
  destruct (nth_error (sentence_list (sentence_display self)) r) as [sentence|];
    [|exact H].
  eexists. split; [exact H|]. repeat split.
Qed.

Lemma fire_timer_only_pending (self : TypingArea) (id : after_id) (due : Z) :
  timer_running self = true ->
  timer_id self = Some id ->
  after_queue self = [(id, due)] ->
  (now self <= due)%Z ->
  fire_timer self
  = Return (tick (set_now due (after_cancel id self)))
  /\ after_queue (tick (set_now due (after_cancel id self)))
     = [(after_count self, (due + 1000)%Z)].
Proof.
  intros Hrun Hid Hq Hnow. unfold fire_timer. rewrite Hid.
  pose proof (handle_Fire id self) as H. cbn [handle] in H. rewrite H.
  unfold due_time. rewrite Hq. cbn [find fst]. rewrite Nat.eqb_refl.
  cbn [option_map snd]. rewrite Hrun. rewrite Z.max_r by exact Hnow.
  split; [reflexivity|].
  unfold tick, after, after_cancel. cbn. rewrite Hq. cbn.
  rewrite Nat.eqb_refl. reflexivity.
Qed.

(** X16. One cadence counts one second per tick: from a running timer
    whose only pending callback is the one kept in [timer_id], due not
    before the present, letting that callback come due [n] times in a
    row adds exactly [n] to the elapsed time and leaves again one
    callback pending, due 1000 ms after the last one fired. *)
Theorem elapsed_counts_ticks (n : nat) :
  forall (self : TypingArea) (id : after_id) (due : Z),
    timer_running self = true ->
    timer_id self = Some id ->
    after_queue self = [(id, due)] ->
    (now self <= due)%Z ->
    exists self' id',
      fire_timer_times n self = Return self'
      /\ timer_running self' = true
      /\ time_elapsed self' = (time_elapsed self + Z.of_nat n)%Z
      /\ timer_id self' = Some id'
      /\ after_queue self' = [(id', (due + 1000 * Z.of_nat n)%Z)].
Proof.
  induction n as [|n IH]; intros self id due Hrun Hid Hq Hnow.
  - exists self, id. split; [reflexivity|]. split; [exact Hrun|].
    split; [cbn; lia|]. split; [exact Hid|].
    rewrite Hq. replace (due + 1000 * Z.of_nat 0)%Z with due by (cbn; lia).
    reflexivity.
  - destruct (fire_timer_only_pending self Hrun Hid Hq Hnow) as [Hfire Hq1].
    destruct (IH (tick (set_now due (after_cancel id self)))
                 (after_count self) (due + 1000)%Z)
      as (s' & id' & Hn & Hr' & Ht' & Hid' & Hq');
      [exact Hrun|reflexivity|exact Hq1|cbn; lia|].
    exists s', id'. cbn [fire_timer_times]. rewrite Hfire. cbn [bind].
    split; [exact Hn|]. split; [exact Hr'|]. split.
    + rewrite Ht'. cbn [tick after set_wpm_label set_timer_label set_time_elapsed
                        set_now after_cancel time_elapsed]. lia.
    + split; [exact Hid'|]. rewrite Hq'.
      replace (due + 1000 + 1000 * Z.of_nat n)%Z
        with (due + 1000 * Z.of_nat (S n))%Z by lia.
      reflexivity.
Qed.

Lemma elapsed_counts_ticks_witness :
  exists s0 s id,
    handle FocusIn (fresh (lit "ab")) = Return s0
    /\ fire_timer_times 5 s0 = Return s
    /\ time_elapsed s = 6%Z
    /\ after_queue s = [(id, 6000%Z)].
Proof.
  pose (s0 := tick (set_timer_running true (fresh (lit "ab")))).
  destruct (@elapsed_counts_ticks 5 s0 0%nat 1000%Z)
    as (s & id & Hn & _ & Ht & _ & Hq); try reflexivity.
  - cbn. lia.
  - exists s0, s, id. split; [reflexivity|]. split; [exact Hn|].
    split; [rewrite Ht; reflexivity|rewrite Hq; reflexivity].
Defined.
